(** * RemindX: the alert controller of [RemindX_Final.ino]

    A shallow embedding of the sketch: the global variables and the
    output latches form one [State] record, the hardware calls
    ([millis], [digitalRead], [pulseIn], the card reader) take their
    answers from a per-iteration input record, and everything the sketch
    sends to the outside (pin writes, serial text, delays, reader
    commands) is collected in a trace of events. *)

From Stdlib Require Import ZArith List Bool String Ascii Lia.
From Stdlib Require Import DecimalString.
From Corelib Require Import SpecFloat.
Import ListNotations.

Local Open Scope Z_scope.

(** ** Machine integers *)

(** [unsigned long] is 32 bits wide on every Arduino core; subtraction
    wraps around. *)
Definition ULONG_MOD : Z := 2 ^ 32.

Definition ul_sub (a b : Z) : Z := (a - b) mod ULONG_MOD.

(** ** Pins and levels *)

Inductive level := LOW | HIGH.

Definition level_eqb (a b : level) : bool :=
  match a, b with
  | LOW, LOW | HIGH, HIGH => true
  | _, _ => false
  end.

Inductive pin := SS_PIN | RST_PIN | LED_PIN | BUZZER_PIN | BUTTON_PIN | TRIG_PIN | ECHO_PIN.

Definition pin_number (p : pin) : Z :=
  match p with
  | SS_PIN => 10 | RST_PIN => 9 | LED_PIN => 5 | BUZZER_PIN => 2
  | BUTTON_PIN => 7 | TRIG_PIN => 8 | ECHO_PIN => 4
  end.

(** ** Card identifiers *)

(** The reader's [Uid] structure: the number of valid bytes and the byte
    buffer.  Bytes are integers below 256. *)
Record Uid := { uid_size : nat; uidByte : list Z }.

Definition uid1 : list Z := [0x07; 0xB6; 0x52; 0x8D].
Definition uid2 : list Z := [0xFA; 0x8E; 0xFD; 0xC6].
Definition uid3 : list Z := [0xDC; 0xAC; 0xC1; 0x01].

(** The buffer of the reader has ten bytes and a card fills four, seven or
    ten of them. *)
Definition wf_uid (u : Uid) : Prop :=
  List.length (uidByte u) = 10%nat /\
  (uid_size u <= 10)%nat /\
  Forall (fun b => 0 <= b < 256) (uidByte u).

(** ** Events sent to the outside world *)

Inductive event :=
| EvWrite (p : pin) (v : level)       (* digitalWrite *)
| EvReadButton (v : level)            (* digitalRead(BUTTON_PIN) *)
| EvPrint (s : string)                (* Serial.print *)
| EvPrintln (s : string)              (* Serial.println *)
| EvDelay (ms : Z)                    (* delay *)
| EvDelayMicroseconds (us : Z)        (* delayMicroseconds *)
| EvPulseIn (dur : Z)                 (* pulseIn(ECHO_PIN, HIGH, 50000) *)
| EvCardPoll (present : bool)         (* PICC_IsNewCardPresent && PICC_ReadCardSerial *)
| EvHaltA.                            (* PICC_HaltA *)

(** ** Program state *)

(** The globals of the sketch, the two static locals of [buttonPressed]
    and the latches of the three output pins. *)
Record State := mkState {
  alertActive : bool;
  lastMotionTime : Z;
  card1Scanned : bool;
  card2Scanned : bool;
  card3Scanned : bool;
  vipMode : bool;
  vipStartTime : Z;
  buzzerState : bool;
  lastBuzzerToggle : Z;
  lastBounce : Z;
  lastState : level;
  pinLED : level;
  pinBUZZER : level;
  pinTRIG : level
}.

Definition motionCooldown : Z := 1500.
Definition MOTION_THRESHOLD_CM : Z := 20.
Definition vipDuration : Z := 30000.
Definition buzzerInterval : Z := 1000.

Definition set_alertActive (v : bool) (s : State) : State :=
  let '(mkState _ a2 a3 a4 a5 a6 a7 a8 a9 a10 a11 a12 a13 a14) := s in
  mkState v a2 a3 a4 a5 a6 a7 a8 a9 a10 a11 a12 a13 a14.
Definition set_lastMotionTime (v : Z) (s : State) : State :=
  let '(mkState a1 _ a3 a4 a5 a6 a7 a8 a9 a10 a11 a12 a13 a14) := s in
  mkState a1 v a3 a4 a5 a6 a7 a8 a9 a10 a11 a12 a13 a14.
Definition set_card1Scanned (v : bool) (s : State) : State :=
  let '(mkState a1 a2 _ a4 a5 a6 a7 a8 a9 a10 a11 a12 a13 a14) := s in
  mkState a1 a2 v a4 a5 a6 a7 a8 a9 a10 a11 a12 a13 a14.
Definition set_card2Scanned (v : bool) (s : State) : State :=
  let '(mkState a1 a2 a3 _ a5 a6 a7 a8 a9 a10 a11 a12 a13 a14) := s in
  mkState a1 a2 a3 v a5 a6 a7 a8 a9 a10 a11 a12 a13 a14.
Definition set_card3Scanned (v : bool) (s : State) : State :=
  let '(mkState a1 a2 a3 a4 _ a6 a7 a8 a9 a10 a11 a12 a13 a14) := s in
  mkState a1 a2 a3 a4 v a6 a7 a8 a9 a10 a11 a12 a13 a14.
Definition set_vipMode (v : bool) (s : State) : State :=
  let '(mkState a1 a2 a3 a4 a5 _ a7 a8 a9 a10 a11 a12 a13 a14) := s in
  mkState a1 a2 a3 a4 a5 v a7 a8 a9 a10 a11 a12 a13 a14.
Definition set_vipStartTime (v : Z) (s : State) : State :=
  let '(mkState a1 a2 a3 a4 a5 a6 _ a8 a9 a10 a11 a12 a13 a14) := s in
  mkState a1 a2 a3 a4 a5 a6 v a8 a9 a10 a11 a12 a13 a14.
Definition set_buzzerState (v : bool) (s : State) : State :=
  let '(mkState a1 a2 a3 a4 a5 a6 a7 _ a9 a10 a11 a12 a13 a14) := s in
  mkState a1 a2 a3 a4 a5 a6 a7 v a9 a10 a11 a12 a13 a14.
Definition set_lastBuzzerToggle (v : Z) (s : State) : State :=
  let '(mkState a1 a2 a3 a4 a5 a6 a7 a8 _ a10 a11 a12 a13 a14) := s in
  mkState a1 a2 a3 a4 a5 a6 a7 a8 v a10 a11 a12 a13 a14.
Definition set_lastBounce (v : Z) (s : State) : State :=
  let '(mkState a1 a2 a3 a4 a5 a6 a7 a8 a9 _ a11 a12 a13 a14) := s in
  mkState a1 a2 a3 a4 a5 a6 a7 a8 a9 v a11 a12 a13 a14.
Definition set_lastState (v : level) (s : State) : State :=
  let '(mkState a1 a2 a3 a4 a5 a6 a7 a8 a9 a10 _ a12 a13 a14) := s in
  mkState a1 a2 a3 a4 a5 a6 a7 a8 a9 a10 v a12 a13 a14.

(** The latch of an output pin; a write to a pin without a latch in the
    model leaves the state alone. *)
Definition set_pin (p : pin) (v : level) (s : State) : State :=
  let '(mkState a1 a2 a3 a4 a5 a6 a7 a8 a9 a10 a11 a12 a13 a14) := s in
  match p with
  | LED_PIN => mkState a1 a2 a3 a4 a5 a6 a7 a8 a9 a10 a11 v a13 a14
  | BUZZER_PIN => mkState a1 a2 a3 a4 a5 a6 a7 a8 a9 a10 a11 a12 v a14
  | TRIG_PIN => mkState a1 a2 a3 a4 a5 a6 a7 a8 a9 a10 a11 a12 a13 v
  | _ => s
  end.

(** ** The monad of the sketch: state and a trace of events *)

Definition M (A : Type) : Type := State -> A * State * list event.

Definition ret {A} (a : A) : M A := fun s => (a, s, []).

Definition bind {A B} (m : M A) (k : A -> M B) : M B :=
  fun s =>
    let '(a, s1, t1) := m s in
    let '(b, s2, t2) := k a s1 in
    (b, s2, t1 ++ t2).

Definition get : M State := fun s => (s, s, []).
Definition modify (f : State -> State) : M unit := fun s => (tt, f s, []).
Definition emit (e : event) : M unit := fun s => (tt, s, [e]).

Declare Scope sketch_scope.
Delimit Scope sketch_scope with sketch.
Notation "x <- m ;; k" := (bind m (fun x => k))
  (at level 61, m at next level, right associativity) : sketch_scope.
Notation "m ;; k" := (bind m (fun _ => k))
  (at level 61, right associativity) : sketch_scope.
Local Open Scope sketch_scope.

Definition when (c : bool) (m : M unit) : M unit := if c then m else ret tt.

Definition final_state {A} (r : A * State * list event) : State := snd (fst r).
Definition result {A} (r : A * State * list event) : A := fst (fst r).
Definition events {A} (r : A * State * list event) : list event := snd r.

(** ** Hardware calls *)

Definition digitalWrite (p : pin) (v : level) : M unit :=
  modify (set_pin p v) ;; emit (EvWrite p v).

Definition println (s : string) : M unit := emit (EvPrintln s).
Definition print (s : string) : M unit := emit (EvPrint s).
Definition delay (ms : Z) : M unit := emit (EvDelay ms).
Definition delayMicroseconds (us : Z) : M unit := emit (EvDelayMicroseconds us).

(** ** [compareUID] *)

(** [for (byte i = 0; i < size; i++) if (a[i] != b[i]) return false;]
    with [i] the current index and [n] the iterations left. *)
Fixpoint compareUID_from (a b : list Z) (i n : nat) : bool :=
  match n with
  | O => true
  | S n' =>
      if negb (nth i a 0 =? nth i b 0) then false
      else compareUID_from a b (S i) n'
  end.

Definition compareUID (a b : list Z) (size : nat) : bool :=
  compareUID_from a b 0 size.

(** ** [buttonPressed] *)

(** One call of [buttonPressed] reads the pin once and the clock up to
    twice: [t_edge] is what [millis()] answers on line 62 (consulted only
    when the level differs from [lastState]) and [t_test] what it answers
    on line 66. *)
Record ButtonSample := { raw : level; t_edge : Z; t_test : Z }.

Definition buttonPressed (b : ButtonSample) : M bool :=
  let cur := raw b in
  emit (EvReadButton cur) ;;
  s <- get ;;
  when (negb (level_eqb cur (lastState s)))
       (modify (set_lastBounce (t_edge b)) ;; modify (set_lastState cur)) ;;
  s <- get ;;
  if (ul_sub (t_test b) (lastBounce s) >? 40) && level_eqb cur LOW then
    modify (set_lastState LOW) ;;
    ret true
  else
    ret false.

(** ** [readDistanceCM] *)

(** [dur * 0.034 / 2] is computed in the target's [double] and converted
    to [long] by the [return].  The arithmetic is that of IEEE 754 with
    [prec] bits of precision and exponent bound [emax], round to nearest
    even. *)
Section FloatFormat.
Variables prec emax : Z.

(** Conversion of an integer to floating point. *)
Definition float_of_Z (z : Z) : spec_float := binary_normalize prec emax z 0 false.

(** The literal [0.034]: the float nearest to 34/1000. *)
Definition lit_0_034 : spec_float :=
  SFdiv prec emax (float_of_Z 34) (float_of_Z 1000).

(** Conversion of a float to [long]: the fractional part is dropped. *)
Definition long_of_float (f : spec_float) : Z :=
  match f with
  | S754_finite sg m e =>
      let a := match e with
               | Z0 => Zpos m
               | Zpos _ => Z.shiftl (Zpos m) e
               | Zneg p => Z.shiftr (Zpos m) (Zpos p)
               end in
      if sg then - a else a
  | _ => 0
  end.

(** [dur * c / two] with the two constants already converted. *)
Definition pulse_to_cm_with (c two : spec_float) (dur : Z) : Z :=
  long_of_float (SFdiv prec emax (SFmul prec emax (float_of_Z dur) c) two).

Definition pulse_to_cm (dur : Z) : Z :=
  pulse_to_cm_with lit_0_034 (float_of_Z 2) dur.
End FloatFormat.

(** On the AVR boards [double] is the IEEE single format; on the 32-bit
    boards it is the IEEE double format. *)
Definition cm_single : Z -> Z := pulse_to_cm 24 128.
Definition cm_double : Z -> Z := pulse_to_cm 53 1024.

(** [readDistanceCM]: the trigger pulse, then the echo width [dur] that
    [pulseIn] answers (0 on timeout). *)
Definition readDistanceCM (dur : Z) : M Z :=
  digitalWrite TRIG_PIN LOW ;;
  delayMicroseconds 2 ;;
  digitalWrite TRIG_PIN HIGH ;;
  delayMicroseconds 10 ;;
  digitalWrite TRIG_PIN LOW ;;
  emit (EvPulseIn dur) ;;
  if dur =? 0 then ret (-1)
  else ret (cm_single dur).

(** ** Serial output of a card identifier *)

Definition hex_digit (d : Z) : string :=
  substring (Z.to_nat d) 1 "0123456789ABCDEF"%string.

(** [Serial.print(b, HEX)] for a byte [b]: upper case, no leading zero. *)
Definition print_hex (b : Z) : string :=
  if b <? 16 then hex_digit b
  else (hex_digit (b / 16) ++ hex_digit (b mod 16))%string.

(** The loop of lines 164-168, with [i] the index and [n] the iterations
    left. *)
Fixpoint print_uid_from (uid : list Z) (i n : nat) : M unit :=
  match n with
  | O => ret tt
  | S n' =>
      let b := nth i uid 0 in
      when (b <? 0x10) (print "0"%string) ;;
      print (print_hex b) ;;
      print " "%string ;;
      print_uid_from uid (S i) n'
  end.

(** [Serial.print] of a [long]. *)
Definition print_long (d : Z) : M unit :=
  print (NilZero.string_of_int (Z.to_int d)).

(** ** One iteration of [loop] *)

(** What the hardware answers during one iteration: the clock on line 94,
    the button at the two calls of [buttonPressed] (lines 97 and 122),
    the card the reader has, if any, and the echo width. *)
Record TickIn := {
  now : Z;
  btn_vip : ButtonSample;
  btn_ack : ButtonSample;
  card : option Uid;
  echo : Z
}.

(** [mfrc522.PICC_IsNewCardPresent() && mfrc522.PICC_ReadCardSerial()] *)
Definition pollCard (inp : TickIn) : M (option Uid) :=
  emit (EvCardPoll (match card inp with Some _ => true | None => false end)) ;;
  ret (card inp).

Definition haltA : M unit := emit EvHaltA.

(** Lines 96-101. *)
Definition vipButton (inp : TickIn) : M unit :=
  pressed <- buttonPressed (btn_vip inp) ;;
  s <- get ;;
  when (pressed && negb (vipMode s))
    (modify (set_vipMode true) ;;
     modify (set_vipStartTime (now inp)) ;;
     println "🎉 VIP Mode manually activated!"%string).

(** Lines 103-108. *)
Definition vipAuto (inp : TickIn) : M unit :=
  s <- get ;;
  when (negb (vipMode s) && card1Scanned s && card2Scanned s && card3Scanned s)
    (modify (set_vipMode true) ;;
     modify (set_vipStartTime (now inp)) ;;
     println "🎉 VIP Mode activated (all cards scanned)!"%string).

(** Lines 110-118. *)
Definition vipExpire (inp : TickIn) : M unit :=
  s <- get ;;
  when (vipMode s && (ul_sub (now inp) (vipStartTime s) >? vipDuration))
    (modify (set_vipMode false) ;;
     modify (set_card3Scanned false) ;;
     modify (set_card2Scanned false) ;;
     modify (set_card1Scanned false) ;;
     println "VIP cooldown ended. Motion alerts enabled again."%string ;;
     s' <- get ;;
     when (negb (alertActive s')) (digitalWrite LED_PIN LOW)).

Definition vipPhase (inp : TickIn) : M unit :=
  vipButton inp ;; vipAuto inp ;; vipExpire inp.

Definition knownCard (u : Uid) : bool :=
  compareUID (uidByte u) uid1 4 || compareUID (uidByte u) uid2 4
  || compareUID (uidByte u) uid3 4.

(** Lines 144-157: the buzzer toggles once a second, or is held off in VIP
    mode. *)
Definition buzzerBlink (inp : TickIn) : M unit :=
  s <- get ;;
  (if negb (vipMode s) then
     when (ul_sub (now inp) (lastBuzzerToggle s) >=? buzzerInterval)
       (modify (set_buzzerState (negb (buzzerState s))) ;;
        s' <- get ;;
        digitalWrite BUZZER_PIN (if buzzerState s' then HIGH else LOW) ;;
        modify (set_lastBuzzerToggle (now inp)))
   else
     digitalWrite BUZZER_PIN LOW) ;;
  digitalWrite LED_PIN HIGH ;;
  delay 20.

(** Lines 121-158: the body of [if (alertActive)]; every path returns. *)
Definition alertHandling (inp : TickIn) : M unit :=
  pressed <- buttonPressed (btn_ack inp) ;;
  if pressed then
    modify (set_alertActive false) ;;
    digitalWrite BUZZER_PIN LOW ;;
    s <- get ;;
    digitalWrite LED_PIN (if vipMode s then HIGH else LOW) ;;
    println "Alert acknowledged via button."%string ;;
    delay 200
  else
    c <- pollCard inp ;;
    match c with
    | Some u =>
        when (knownCard u)
          (modify (set_alertActive false) ;;
           digitalWrite BUZZER_PIN LOW ;;
           digitalWrite LED_PIN HIGH ;;
           println "Known card scanned -> alert cleared, LED ON."%string) ;;
        haltA ;;
        delay 200
    | None => buzzerBlink inp
    end.

(** Lines 162-180: a card was read while no alert is active. *)
Definition cardScan (inp : TickIn) (u : Uid) : M unit :=
  print "Card UID: "%string ;;
  print_uid_from (uidByte u) 0 (uid_size u) ;;
  println ""%string ;;
  when (compareUID (uidByte u) uid1 4) (modify (set_card1Scanned true)) ;;
  when (compareUID (uidByte u) uid2 4) (modify (set_card2Scanned true)) ;;
  when (compareUID (uidByte u) uid3 4) (modify (set_card3Scanned true)) ;;
  digitalWrite LED_PIN HIGH ;;
  modify (set_lastMotionTime (now inp)) ;;
  haltA ;;
  delay 100.

(** Lines 183-204. *)
Definition motionDetection (inp : TickIn) : M unit :=
  s <- get ;;
  when (ul_sub (now inp) (lastMotionTime s) >? motionCooldown)
    (dist <- readDistanceCM (echo inp) ;;
     when ((dist >? 0) && (dist <=? MOTION_THRESHOLD_CM))
       (s' <- get ;;
        (if negb (vipMode s') then
           modify (set_alertActive true) ;;
           modify (set_buzzerState true) ;;
           modify (set_lastBuzzerToggle (now inp)) ;;
           digitalWrite BUZZER_PIN HIGH ;;
           digitalWrite LED_PIN HIGH ;;
           print "🚨 Motion detected ("%string ;;
           print_long dist ;;
           println " cm) -> buzzer blinking 1s"%string
         else
           println "Motion detected but VIP active -> buzzer OFF, LED ON"%string ;;
           digitalWrite LED_PIN HIGH) ;;
        modify (set_lastMotionTime (now inp)))) ;;
  delay 40.

(** Lines 160-204: what [loop] does when no alert is active. *)
Definition idleHandling (inp : TickIn) : M unit :=
  c <- pollCard inp ;;
  match c with
  | Some u => cardScan inp u
  | None => motionDetection inp
  end.

(** Lines 120-204: the branch on [alertActive]. *)
Definition dispatch (inp : TickIn) : M unit :=
  s <- get ;;
  if alertActive s then alertHandling inp else idleHandling inp.

Definition loop (inp : TickIn) : M unit :=
  vipPhase inp ;; dispatch inp.

(** ** [setup] and runs of the sketch *)

(** The globals as their initialisers leave them.  The output latches are
    low after reset. *)
Definition power_on : State :=
  {| alertActive := false; lastMotionTime := 0;
     card1Scanned := false; card2Scanned := false; card3Scanned := false;
     vipMode := false; vipStartTime := 0;
     buzzerState := false; lastBuzzerToggle := 0;
     lastBounce := 0; lastState := HIGH;
     pinLED := LOW; pinBUZZER := LOW; pinTRIG := LOW |}.

Definition setup : M unit :=
  digitalWrite LED_PIN LOW ;;
  digitalWrite BUZZER_PIN LOW ;;
  println "RemindX Ready!"%string.

Definition initial : State := final_state (setup power_on).

(** The state after one iteration. *)
Definition tick (inp : TickIn) (s : State) : State := final_state (loop inp s).

(** The state after the iterations of [ins], oldest first. *)
Definition run (ins : list TickIn) (s : State) : State :=
  fold_left (fun st inp => tick inp st) ins s.

(** Successive calls of [buttonPressed] alone. *)
Fixpoint polls (bs : list ButtonSample) (s : State) : list bool * State :=
  match bs with
  | [] => ([], s)
  | b :: bs' =>
      let r := buttonPressed b s in
      let '(rs, s') := polls bs' (final_state r) in
      (result r :: rs, s')
  end.

(** ** Credentials and their scan flags *)

Inductive cred := Cred1 | Cred2 | Cred3.

Definition cred_uid (c : cred) : list Z :=
  match c with Cred1 => uid1 | Cred2 => uid2 | Cred3 => uid3 end.

Definition scanned (c : cred) (s : State) : bool :=
  match c with
  | Cred1 => card1Scanned s
  | Cred2 => card2Scanned s
  | Cred3 => card3Scanned s
  end.

(** The reader holds a card whose first four bytes are those of [c]. *)
Definition presents (c : cred) (inp : TickIn) : bool :=
  match card inp with
  | Some u => compareUID (uidByte u) (cred_uid c) 4
  | None => false
  end.

(** An iteration that reads the card of [c] on the path of lines 160-181,
    which is taken when no alert is active. *)
Definition idle_scan (c : cred) (inp : TickIn) (s : State) : bool :=
  negb (alertActive s) && presents c inp.

(** Some iteration of the run [ins] from [s] is an [idle_scan] of [c]. *)
Fixpoint idle_scanned (c : cred) (s : State) (ins : list TickIn) : bool :=
  match ins with
  | [] => false
  | inp :: rest => idle_scan c inp s || idle_scanned c (tick inp s) rest
  end.

(** Some iteration of the run reads the card of [c] from the reader, on
    either path. *)
Definition reads_card (inp : TickIn) (s : State) : bool :=
  existsb (fun e => match e with EvCardPoll true => true | _ => false end)
          (events (loop inp s)).

Fixpoint card_read (c : cred) (s : State) (ins : list TickIn) : bool :=
  match ins with
  | [] => false
  | inp :: rest =>
      (reads_card inp s && presents c inp) || card_read c (tick inp s) rest
  end.

(** VIP mode is off before and after every iteration of the run. *)
Fixpoint vip_off_throughout (s : State) (ins : list TickIn) : bool :=
  negb (vipMode s) &&
  match ins with
  | [] => true
  | inp :: rest => vip_off_throughout (tick inp s) rest
  end.

(** The button is released at both reads of every iteration. *)
Definition button_released (inp : TickIn) : bool :=
  level_eqb (raw (btn_vip inp)) HIGH && level_eqb (raw (btn_ack inp)) HIGH.

(** The buzzer sounds only during an alert. *)
Definition buzzer_inv (s : State) : Prop :=
  pinBUZZER s = HIGH -> alertActive s = true.

(** ** Auxiliary definitions for the statements *)

(** The serial text of the identifier loop, which leaves the state alone. *)
Fixpoint uid_text (uid : list Z) (i n : nat) : list event :=
  match n with
  | O => []
  | S n' =>
      let b := nth i uid 0 in
      (if b <? 0x10 then [EvPrint "0"%string] else [])
        ++ EvPrint (print_hex b) :: EvPrint " "%string :: uid_text uid (S i) n'
  end.

(** The centimetres [readDistanceCM] answers for an echo of [dur]. *)
Definition distance_of (dur : Z) : Z := result (readDistanceCM dur power_on).


Definition sample (l : level) (t : Z) : ButtonSample :=
  {| raw := l; t_edge := t; t_test := t |}.
Definition quiet_tick (t : Z) : TickIn :=
  {| now := t; btn_vip := sample HIGH t; btn_ack := sample HIGH t;
     card := None; echo := 0 |}.
Definition press_tick (t : Z) : TickIn :=
  {| now := t; btn_vip := sample LOW t; btn_ack := sample LOW t;
     card := None; echo := 0 |}.
Definition motion_tick (t dur : Z) : TickIn :=
  {| now := t; btn_vip := sample HIGH t; btn_ack := sample HIGH t;
     card := None; echo := dur |}.
Definition card_of (bytes : list Z) : Uid :=
  {| uid_size := 4; uidByte := bytes ++ [0; 0; 0; 0; 0; 0] |}.
Definition card_tick (t : Z) (bytes : list Z) : TickIn :=
  {| now := t; btn_vip := sample HIGH t; btn_ack := sample HIGH t;
     card := Some (card_of bytes); echo := 0 |}.


(** The reader holds the card of [c] or none. *)
Definition only_presents (c : cred) (inp : TickIn) : bool :=
  match card inp with
  | Some u => compareUID (uidByte u) (cred_uid c) 4
  | None => true
  end.


(** The same iteration with other answers of the card reader and of the
    range sensor. *)
Definition with_card_echo (c : option Uid) (e : Z) (inp : TickIn) : TickIn :=
  {| now := now inp; btn_vip := btn_vip inp; btn_ack := btn_ack inp;
     card := c; echo := e |}.


(** [ok] holds on the [n] integers from [base] on. *)
Fixpoint holds_on (ok : Z -> bool) (base : Z) (n : positive) : bool :=
  match n with
  | xH => ok base
  | xO q => holds_on ok base q && holds_on ok (base + Zpos q) q
  | xI q => ok base && holds_on ok (base + 1) q && holds_on ok (base + 1 + Zpos q) q
  end.

(** The integer part of 17 P / 1000, which is P * 0.034 / 2. *)
Definition floor_cm (P : Z) : Z := 17 * P / 1000.

(** The conversion in the format [prec], [emax] gives [floor_cm] on the
    pulses from 1 to [n] microseconds. *)
Definition agrees (prec emax : Z) (n : positive) : bool :=
  let c := lit_0_034 prec emax in
  let two := float_of_Z prec emax 2 in
  holds_on (fun P => pulse_to_cm_with prec emax c two P =? floor_cm P) 1 n.


(** The button held down, polled at 0, 50 and 100 ms. *)
Definition held_samples : list ButtonSample :=
  [sample LOW 0; sample LOW 50; sample LOW 100].


(** Four bytes that are none of the three credentials. *)
Definition unknown_bytes : list Z := [0x01; 0x02; 0x03; 0x04].


(** The level is LOW at every poll of [bs]. *)
Definition all_low (bs : list ButtonSample) : bool :=
  forallb (fun b => level_eqb (raw b) LOW) bs.


(** Equality of credentials. *)
Definition cred_eqb (a b : cred) : bool :=
  match a, b with
  | Cred1, Cred1 | Cred2, Cred2 | Cred3, Cred3 => true
  | _, _ => false
  end.


(** The pauses of a trace, in order. *)
Definition delays (evs : list event) : list Z :=
  flat_map (fun e => match e with EvDelay d => [d] | _ => [] end) evs.

(** The characters a trace sends to the serial line. *)
Fixpoint serial_text (evs : list event) : string :=
  match evs with
  | [] => EmptyString
  | EvPrint s :: rest => (s ++ serial_text rest)%string
  | EvPrintln s :: rest =>
      (s ++ String "013" (String "010" (serial_text rest)))%string
  | _ :: rest => serial_text rest
  end.

(** The value of an upper-case hexadecimal digit. *)
Definition hex_value (c : ascii) : option Z :=
  let n := Z.of_nat (nat_of_ascii c) in
  if (48 <=? n) && (n <=? 57) then Some (n - 48)
  else if (65 <=? n) && (n <=? 70) then Some (n - 55)
  else None.

(** Reads back a line of two-digit hexadecimal bytes, each followed by a
    space. *)
Fixpoint read_hex_bytes (s : string) : list Z :=
  match s with
  | String h (String l (String " " rest)) =>
      match hex_value h, hex_value l with
      | Some a, Some b => (16 * a + b) :: read_hex_bytes rest
      | _, _ => []
      end
  | _ => []
  end.


(** The pause that ends an iteration. *)
Definition tick_pause (inp : TickIn) (s : State) : Z :=
  let card_present := match card inp with Some _ => true | None => false end in
  if alertActive s then
    if result (buttonPressed (btn_ack inp) (final_state (vipPhase inp s)))
       || card_present
    then 200 else 20
  else if card_present then 100 else 40.


(** The two characters printed for the byte [b] on lines 165-166. *)
Definition byte_text (b : Z) : string :=
  append (if b <? 16 then "0"%string else ""%string) (print_hex b).

(** They are two hexadecimal digits of value [b]. *)
Definition byte_text_ok (b : Z) : bool :=
  match byte_text b with
  | String h (String l EmptyString) =>
      match hex_value h, hex_value l with
      | Some x, Some y => (16 * x + y =? b)
      | _, _ => false
      end
  | _ => false
  end.


(** The last iteration of a run, if it has one. *)
Definition last_tick (ins : list TickIn) : option TickIn :=
  last (map Some ins) None.

(** * Properties *)

Arguments ul_sub : simpl never.
Arguments cm_single : simpl never.
Arguments NilZero.string_of_int : simpl never.
Arguments compareUID : simpl never.
Arguments Z.gtb : simpl never.
Arguments Z.geb : simpl never.
Arguments Z.leb : simpl never.
Arguments Z.ltb : simpl never.
Arguments Z.eqb : simpl never.

(** ** Sequencing *)

Lemma final_state_bind {A B} (m : M A) (k : A -> M B) (s : State) :
  final_state (bind m k s) = final_state (k (result (m s)) (final_state (m s))).
Proof.
  unfold bind, final_state, result.
  destruct (m s) as [[a s1] t1]; cbn.
  destruct (k a s1) as [[b s2] t2]; reflexivity.
Qed.

Lemma events_bind {A B} (m : M A) (k : A -> M B) (s : State) :
  events (bind m k s) =
  events (m s) ++ events (k (result (m s)) (final_state (m s))).
Proof.
  unfold bind, final_state, result, events.
  destruct (m s) as [[a s1] t1]; cbn.
  destruct (k a s1) as [[b s2] t2]; reflexivity.
Qed.

Lemma tick_split (inp : TickIn) (s : State) :
  tick inp s = final_state (dispatch inp (final_state (vipPhase inp s))).
Proof. exact (final_state_bind (vipPhase inp) (fun _ => dispatch inp) s). Qed.

Lemma loop_events_split (inp : TickIn) (s : State) :
  events (loop inp s) =
  events (vipPhase inp s) ++ events (dispatch inp (final_state (vipPhase inp s))).
Proof. exact (events_bind (vipPhase inp) (fun _ => dispatch inp) s). Qed.

Lemma run_app (xs ys : list TickIn) (s : State) :
  run (xs ++ ys) s = run ys (run xs s).
Proof. unfold run. apply fold_left_app. Qed.

Lemma run_cons (inp : TickIn) (ins : list TickIn) (s : State) :
  run (inp :: ins) s = run ins (tick inp s).
Proof. reflexivity. Qed.

Lemma ul_sub_diag (t : Z) : ul_sub t t = 0.
Proof. unfold ul_sub. rewrite Z.sub_diag. reflexivity. Qed.

(** ** Symbolic execution *)

Lemma print_uid_from_run (uid : list Z) (n i : nat) (s : State) :
  print_uid_from uid i n s = (tt, s, uid_text uid i n).
Proof.
  revert i; induction n as [|n IH]; intros i; [reflexivity|].
  cbn [print_uid_from uid_text].
  destruct (nth i uid 0 <? 16);
    unfold bind, when, print, emit, ret; cbn; rewrite IH; reflexivity.
Qed.

Arguments print_uid_from : simpl never.

Ltac unfold_sketch :=
  unfold tick, loop, dispatch, vipPhase, vipButton, vipAuto, vipExpire,
    alertHandling, idleHandling, cardScan, motionDetection, buzzerBlink,
    readDistanceCM, buttonPressed, pollCard, haltA, knownCard, digitalWrite,
    print_long, println, print, delay, delayMicroseconds, when, bind, ret, get, modify,
    emit, final_state, result, events in *.

Ltac case_if :=
  match goal with
  | |- context [if ?c then _ else _] => destruct c eqn:?
  | |- context [match ?c with Some _ => _ | None => _ end] => destruct c eqn:?
  end.

Ltac sketch_step := first [rewrite print_uid_from_run | case_if].

Ltac sketch_cases := unfold_sketch; cbn in *; repeat (sketch_step; cbn in *).

Ltac in_list := cbn; repeat (first [left; reflexivity | right]).

(** The cards built by [card_of] are well formed. *)
Lemma card_of_wf (bytes : list Z) :
  List.length bytes = 4%nat -> Forall (fun b => 0 <= b < 256) bytes ->
  wf_uid (card_of bytes).
Proof.
  intros Hl Hb. unfold wf_uid, card_of; cbn [uidByte uid_size].
  rewrite length_app, Hl. repeat split; [lia|].
  apply Forall_app; split; [exact Hb|].
  repeat constructor; lia.
Qed.

(** ** The button *)

Lemma buttonPressed_frame b s :
  final_state (buttonPressed b s) =
  set_lastState (lastState (final_state (buttonPressed b s)))
    (set_lastBounce (lastBounce (final_state (buttonPressed b s))) s).
Proof. destruct s, b. sketch_cases; reflexivity. Qed.

Lemma buttonPressed_held b s :
  raw b = LOW -> lastState s = LOW ->
  (ul_sub (t_test b) (lastBounce s) >? 40) = true ->
  buttonPressed b s = (true, s, [EvReadButton LOW]).
Proof.
  destruct s, b as [r e t]; cbn. intros -> -> H.
  unfold_sketch; cbn. rewrite H. reflexivity.
Qed.

Lemma buttonPressed_released b s :
  raw b = HIGH -> result (buttonPressed b s) = false.
Proof.
  destruct s as [? ? ? ? ? ? ? ? ? ? ls ? ? ?], b as [r e t]; cbn. intros ->.
  unfold_sketch; cbn. destruct ls; cbn; rewrite andb_false_r; reflexivity.
Qed.

Lemma buttonPressed_events b s :
  events (buttonPressed b s) = [EvReadButton (raw b)].
Proof. destruct s, b. sketch_cases; reflexivity. Qed.

(** ** Lines 96-118 *)

Lemma vipPhase_frame inp s :
  let s1 := final_state (vipPhase inp s) in
  alertActive s1 = alertActive s /\ lastMotionTime s1 = lastMotionTime s /\
  buzzerState s1 = buzzerState s /\ lastBuzzerToggle s1 = lastBuzzerToggle s /\
  pinBUZZER s1 = pinBUZZER s /\ pinTRIG s1 = pinTRIG s.
Proof.
  destruct s, inp as [n [r1 e1 t1] b2 c e].
  sketch_cases; repeat split; reflexivity.
Qed.

Lemma vipPhase_buzzer_silent inp s v :
  ~ In (EvWrite BUZZER_PIN v) (events (vipPhase inp s)).
Proof.
  destruct s, inp as [n [r1 e1 t1] b2 c e].
  sketch_cases; intros H; repeat (destruct H as [H|H]; try discriminate); exact H.
Qed.

Lemma vipPhase_keeps inp s :
  vipMode s = true ->
  (ul_sub (now inp) (vipStartTime s) >? vipDuration) = false ->
  final_state (vipPhase inp s) = final_state (buttonPressed (btn_vip inp) s).
Proof.
  destruct s, inp as [n [r1 e1 t1] b2 c e]; cbn. intros -> H.
  unfold_sketch; cbn. repeat (case_if; cbn); first [reflexivity | congruence].
Qed.

Lemma vipPhase_expires inp s :
  vipMode s = true ->
  (ul_sub (now inp) (vipStartTime s) >? vipDuration) = true ->
  let s1 := final_state (vipPhase inp s) in
  vipMode s1 = false /\
  card1Scanned s1 = false /\ card2Scanned s1 = false /\ card3Scanned s1 = false /\
  (alertActive s = false ->
   pinLED s1 = LOW /\ In (EvWrite LED_PIN LOW) (events (vipPhase inp s))) /\
  (alertActive s = true -> pinLED s1 = pinLED s).
Proof.
  destruct s, inp as [n [r1 e1 t1] b2 c e]; cbn. intros -> H.
  unfold_sketch; cbn.
  repeat (case_if; cbn); try congruence; repeat split; intros; subst; cbn;
    try reflexivity; try discriminate; auto.
Qed.

Lemma vipPhase_from_off inp s :
  vipMode s = false ->
  let s1 := final_state (vipPhase inp s) in
  card1Scanned s1 = card1Scanned s /\ card2Scanned s1 = card2Scanned s /\
  card3Scanned s1 = card3Scanned s /\ pinLED s1 = pinLED s /\
  (vipMode s1 = true -> vipStartTime s1 = now inp) /\
  (vipMode s1 = false -> s1 = final_state (buttonPressed (btn_vip inp) s)).
Proof.
  destruct s, inp as [n [r1 e1 t1] b2 c e]; cbn. intros ->.
  unfold_sketch; cbn.
  repeat (first [rewrite ul_sub_diag | case_if]; cbn);
    repeat split; intros; try reflexivity; try discriminate.
Qed.

Lemma vipPhase_auto inp s :
  vipMode s = false ->
  card1Scanned s && card2Scanned s && card3Scanned s = true ->
  let s1 := final_state (vipPhase inp s) in
  vipMode s1 = true /\ vipStartTime s1 = now inp.
Proof.
  destruct s, inp as [n [r1 e1 t1] b2 c e]; cbn. intros -> H.
  unfold_sketch; cbn.
  repeat (first [rewrite ul_sub_diag | rewrite H | case_if]; cbn);
    repeat split; try reflexivity; try discriminate.
Qed.

Lemma vipPhase_quiet inp s :
  vipMode s = false ->
  result (buttonPressed (btn_vip inp) s) = false ->
  card1Scanned s && card2Scanned s && card3Scanned s = false ->
  final_state (vipPhase inp s) = final_state (buttonPressed (btn_vip inp) s).
Proof.
  destruct s, inp as [n [r1 e1 t1] b2 c e]; cbn. intros -> Hb H.
  unfold_sketch; cbn in *.
  repeat (case_if; cbn in * ); rewrite ?H in *; cbn in *;
    try reflexivity; try discriminate.
Qed.

Lemma vipPhase_cleared inp s :
  vipMode s = true ->
  vipMode (final_state (vipPhase inp s)) = false ->
  forall c, scanned c (final_state (vipPhase inp s)) = false.
Proof.
  intros Hv Hoff c.
  destruct (ul_sub (now inp) (vipStartTime s) >? vipDuration) eqn:E.
  - destruct (vipPhase_expires inp s Hv E) as (_ & H1 & H2 & H3 & _).
    destruct c; assumption.
  - rewrite (vipPhase_keeps inp s Hv E), buttonPressed_frame in Hoff.
    destruct s; cbn in *. congruence.
Qed.

(** ** Lines 120-204 *)

Lemma dispatch_vip inp s :
  let s2 := final_state (dispatch inp s) in
  vipMode s2 = vipMode s /\ vipStartTime s2 = vipStartTime s.
Proof.
  destruct s, inp as [n b1 [r2 e2 t2] c e].
  sketch_cases; repeat split; reflexivity.
Qed.

Lemma dispatch_scanned inp s c :
  scanned c (final_state (dispatch inp s)) = scanned c s || idle_scan c inp s.
Proof.
  unfold idle_scan, presents.
  destruct s, inp as [n b1 [r2 e2 t2] cd e], c; cbn.
  all: sketch_cases; rewrite ?orb_false_r, ?orb_true_r; try reflexivity; try congruence.
Qed.

Lemma readDistanceCM_result dur s :
  result (readDistanceCM dur s) = distance_of dur.
Proof. unfold distance_of. destruct s. sketch_cases; reflexivity. Qed.

Lemma distance_of_eq dur :
  distance_of dur = if dur =? 0 then -1 else cm_single dur.
Proof. unfold distance_of. sketch_cases; reflexivity. Qed.

Lemma uid_text_prints uid n i e :
  In e (uid_text uid i n) -> exists str, e = EvPrint str.
Proof.
  revert i; induction n as [|n IH]; intros i; cbn; [tauto|].
  rewrite in_app_iff. intros [H | [H | [H | H]]]; eauto.
  destruct (nth i uid 0 <? 16); cbn in H; [|tauto].
  destruct H as [H|[]]; eauto.
Qed.

Ltac not_in_events H :=
  cbn in H;
  repeat (first
    [ discriminate H
    | contradiction H
    | apply in_app_or in H
    | destruct H as [H | H]
    | (apply uid_text_prints in H; destruct H as [? H]) ]).

Lemma dispatch_buzzer_inv inp s :
  buzzer_inv s -> buzzer_inv (final_state (dispatch inp s)).
Proof.
  unfold buzzer_inv.
  destruct s, inp as [n b1 [r2 e2 t2] c e]; cbn.
  sketch_cases; intros; first [reflexivity | discriminate | auto].
Qed.

Lemma dispatch_buzzer_high inp s :
  In (EvWrite BUZZER_PIN HIGH) (events (dispatch inp s)) ->
  alertActive (final_state (dispatch inp s)) = true /\
  vipMode (final_state (dispatch inp s)) = false.
Proof.
  destruct s as [? ? ? ? ? vip ? ? ? ? ? ? ? ?], inp as [n b1 [r2 e2 t2] c e]; cbn.
  sketch_cases; intros H; try (split; [reflexivity | ]);
    try (destruct vip; [discriminate | reflexivity]); not_in_events H.
Qed.

Lemma dispatch_alert_cleared inp s :
  alertActive s = true ->
  alertActive (final_state (dispatch inp s)) = false ->
  pinBUZZER (final_state (dispatch inp s)) = LOW /\
  In (EvWrite BUZZER_PIN LOW) (events (dispatch inp s)).
Proof.
  destruct s, inp as [n b1 [r2 e2 t2] c e]; cbn. intros ->.
  sketch_cases; intros H; try discriminate H; split; cbn; auto.
Qed.

Lemma dispatch_vip_silent inp s :
  vipMode s = true ->
  ~ In (EvWrite BUZZER_PIN HIGH) (events (dispatch inp s)) /\
  (alertActive (final_state (dispatch inp s)) = true -> alertActive s = true) /\
  (pinBUZZER (final_state (dispatch inp s)) = HIGH -> pinBUZZER s = HIGH).
Proof.
  destruct s, inp as [n b1 [r2 e2 t2] c e]; cbn. intros ->.
  sketch_cases; (split; [intros H; not_in_events H | split; intros H; first [exact H | discriminate H | reflexivity]]).
Qed.

Lemma dispatch_vip_motion inp s :
  vipMode s = true -> alertActive s = false -> card inp = None ->
  (ul_sub (now inp) (lastMotionTime s) >? motionCooldown) = true ->
  (distance_of (echo inp) >? 0) && (distance_of (echo inp) <=? MOTION_THRESHOLD_CM) = true ->
  dispatch inp s =
  (tt,
   set_lastMotionTime (now inp) (set_pin LED_PIN HIGH (set_pin TRIG_PIN LOW s)),
   [EvCardPoll false; EvWrite TRIG_PIN LOW; EvDelayMicroseconds 2;
    EvWrite TRIG_PIN HIGH; EvDelayMicroseconds 10; EvWrite TRIG_PIN LOW;
    EvPulseIn (echo inp);
    EvPrintln "Motion detected but VIP active -> buzzer OFF, LED ON";
    EvWrite LED_PIN HIGH; EvDelay 40]).
Proof.
  rewrite distance_of_eq.
  destruct s, inp as [n b1 b2 c e]; cbn. intros -> -> -> Hc Hd.
  unfold_sketch; cbn. rewrite Hc; cbn.
  destruct (e =? 0); cbn; rewrite Hd; reflexivity.
Qed.

Lemma dispatch_unknown_card inp s u :
  alertActive s = false -> card inp = Some u -> knownCard u = false ->
  dispatch inp s =
  (tt,
   set_lastMotionTime (now inp) (set_pin LED_PIN HIGH s),
   EvCardPoll true :: EvPrint "Card UID: " ::
     uid_text (uidByte u) 0 (uid_size u) ++
     [EvPrintln ""; EvWrite LED_PIN HIGH; EvHaltA; EvDelay 100]).
Proof.
  unfold knownCard.
  destruct s, inp as [n b1 b2 c e]; cbn. intros -> -> Hk.
  apply orb_false_elim in Hk as [Hk H3]. apply orb_false_elim in Hk as [H1 H2].
  unfold_sketch; cbn. rewrite print_uid_from_run, H1, H2, H3. reflexivity.
Qed.

Lemma dispatch_ack_card inp s u :
  alertActive s = true ->
  result (buttonPressed (btn_ack inp) s) = false ->
  card inp = Some u -> knownCard u = true ->
  dispatch inp s =
  (tt,
   set_pin LED_PIN HIGH (set_pin BUZZER_PIN LOW
     (set_alertActive false (final_state (buttonPressed (btn_ack inp) s)))),
   [EvReadButton (raw (btn_ack inp)); EvCardPoll true;
    EvWrite BUZZER_PIN LOW; EvWrite LED_PIN HIGH;
    EvPrintln "Known card scanned -> alert cleared, LED ON.";
    EvHaltA; EvDelay 200]).
Proof.
  unfold knownCard.
  destruct s, inp as [n b1 [r2 e2 t2] c e]; cbn. intros -> Hb -> Hk.
  unfold_sketch; cbn in *.
  repeat (first [rewrite Hk | case_if]; cbn in * ); first [reflexivity | discriminate].
Qed.

Lemma dispatch_ack_button inp s :
  alertActive s = true ->
  result (buttonPressed (btn_ack inp) s) = true ->
  dispatch inp s =
  (tt,
   set_pin LED_PIN (if vipMode s then HIGH else LOW) (set_pin BUZZER_PIN LOW
     (set_alertActive false (final_state (buttonPressed (btn_ack inp) s)))),
   [EvReadButton (raw (btn_ack inp)); EvWrite BUZZER_PIN LOW;
    EvWrite LED_PIN (if vipMode s then HIGH else LOW);
    EvPrintln "Alert acknowledged via button."; EvDelay 200]).
Proof.
  destruct s, inp as [n b1 [r2 e2 t2] c e]; cbn. intros -> Hb.
  unfold_sketch; cbn in *.
  repeat (case_if; cbn in * ); first [reflexivity | discriminate].
Qed.

Lemma dispatch_motion_alert inp s :
  alertActive s = false -> vipMode s = false -> card inp = None ->
  (ul_sub (now inp) (lastMotionTime s) >? motionCooldown) = true ->
  (distance_of (echo inp) >? 0) && (distance_of (echo inp) <=? MOTION_THRESHOLD_CM) = true ->
  final_state (dispatch inp s) =
  set_lastMotionTime (now inp) (set_pin LED_PIN HIGH (set_pin BUZZER_PIN HIGH
    (set_lastBuzzerToggle (now inp) (set_buzzerState true (set_alertActive true
      (set_pin TRIG_PIN LOW s)))))) /\
  In (EvWrite BUZZER_PIN HIGH) (events (dispatch inp s)) /\
  In (EvWrite LED_PIN HIGH) (events (dispatch inp s)).
Proof.
  rewrite distance_of_eq.
  destruct s, inp as [n b1 b2 c e]; cbn. intros -> -> -> Hc Hd.
  unfold_sketch; cbn. rewrite Hc; cbn.
  destruct (e =? 0); cbn; rewrite Hd; cbn; intuition.
Qed.

Lemma gtb_false_le a b : a <= b -> (a >? b) = false.
Proof. intros H. rewrite Z.gtb_ltb. apply Z.ltb_ge. exact H. Qed.

Lemma gtb_true_gt a b : a > b -> (a >? b) = true.
Proof. intros H. rewrite Z.gtb_ltb. apply Z.ltb_lt. lia. Qed.

Lemma in_range_bool d :
  0 < d <= MOTION_THRESHOLD_CM -> (d >? 0) && (d <=? MOTION_THRESHOLD_CM) = true.
Proof.
  intros [H1 H2]. rewrite gtb_true_gt by lia.
  apply Z.leb_le in H2. rewrite H2. reflexivity.
Qed.

(** ** Runs *)

Lemma tick_buzzer_inv inp s : buzzer_inv s -> buzzer_inv (tick inp s).
Proof.
  intros H. rewrite tick_split. apply dispatch_buzzer_inv.
  destruct (vipPhase_frame inp s) as (Ha & _ & _ & _ & Hb & _).
  unfold buzzer_inv in *. rewrite Ha, Hb. exact H.
Qed.

Lemma run_buzzer_inv ins : forall s, buzzer_inv s -> buzzer_inv (run ins s).
Proof.
  induction ins as [|inp ins IH]; intros s H; [exact H|].
  rewrite run_cons. apply IH, tick_buzzer_inv, H.
Qed.

Lemma tick_vip inp s :
  vipMode (tick inp s) = vipMode (final_state (vipPhase inp s)) /\
  vipStartTime (tick inp s) = vipStartTime (final_state (vipPhase inp s)).
Proof. rewrite tick_split. apply dispatch_vip. Qed.

Lemma idle_scan_after_vipPhase inp s c :
  idle_scan c inp (final_state (vipPhase inp s)) = idle_scan c inp s.
Proof.
  unfold idle_scan.
  destruct (vipPhase_frame inp s) as (Ha & _). rewrite Ha. reflexivity.
Qed.

Lemma tick_scanned_vip_off inp s c :
  vipMode s = false ->
  scanned c (tick inp s) = scanned c s || idle_scan c inp s.
Proof.
  intros Hv. rewrite tick_split, dispatch_scanned, idle_scan_after_vipPhase.
  destruct (vipPhase_from_off inp s Hv) as (H1 & H2 & H3 & _).
  destruct c; cbn [scanned]; congruence.
Qed.

Lemma vip_off_run ins : forall s,
  vip_off_throughout s ins = true -> vipMode (run ins s) = false.
Proof.
  induction ins as [|inp ins IH]; intros s H; cbn in H;
    apply andb_true_iff in H as [Hs H].
  - apply negb_true_iff in Hs. exact Hs.
  - rewrite run_cons. apply IH, H.
Qed.

Lemma scanned_run ins c : forall s,
  vip_off_throughout s ins = true ->
  scanned c s || idle_scanned c s ins = true ->
  scanned c (run ins s) = true.
Proof.
  induction ins as [|inp ins IH]; intros s Hoff H; cbn in *.
  - rewrite orb_false_r in H. exact H.
  - apply andb_true_iff in Hoff as [Hs Hoff]. apply negb_true_iff in Hs.
    apply IH; [exact Hoff|].
    rewrite (tick_scanned_vip_off inp s c Hs).
    rewrite orb_assoc in H. exact H.
Qed.

Lemma uid_distinct bytes c c' :
  compareUID bytes (cred_uid c) 4 = true ->
  compareUID bytes (cred_uid c') 4 = true -> c = c'.
Proof.
  unfold compareUID; cbn [compareUID_from].
  destruct (nth 0 bytes 0 =? nth 0 (cred_uid c) 0) eqn:E; [|discriminate].
  destruct (nth 0 bytes 0 =? nth 0 (cred_uid c') 0) eqn:E'; [|discriminate].
  intros _ _. apply Z.eqb_eq in E, E'. rewrite E in E'.
  destruct c, c'; cbn in E'; first [reflexivity | discriminate].
Qed.

Lemma tick_single_credential inp s c :
  vipMode s = false ->
  (forall c', c' <> c -> scanned c' s = false) ->
  button_released inp = true -> only_presents c inp = true ->
  vipMode (tick inp s) = false /\
  (forall c', c' <> c -> scanned c' (tick inp s) = false).
Proof.
  intros Hv Hflags Hrel Hcard.
  apply andb_true_iff in Hrel as [Hrel _].
  assert (Hraw : raw (btn_vip inp) = HIGH) by (destruct (raw (btn_vip inp)); [discriminate|reflexivity]).
  assert (Hnot : card1Scanned s && card2Scanned s && card3Scanned s = false).
  { destruct c.
    - specialize (Hflags Cred2 ltac:(discriminate)). cbn in Hflags. rewrite Hflags.
      apply andb_false_iff; left; apply andb_false_r.
    - specialize (Hflags Cred1 ltac:(discriminate)). cbn in Hflags. rewrite Hflags.
      reflexivity.
    - specialize (Hflags Cred1 ltac:(discriminate)). cbn in Hflags. rewrite Hflags.
      reflexivity. }
  pose proof (vipPhase_quiet inp s Hv (buttonPressed_released _ s Hraw) Hnot) as Hq.
  split.
  - rewrite (proj1 (tick_vip inp s)), Hq, buttonPressed_frame.
    destruct s; exact Hv.
  - intros c' Hne. rewrite (tick_scanned_vip_off inp s c' Hv), (Hflags c' Hne).
    cbn. unfold idle_scan, presents. unfold only_presents in Hcard.
    destruct (card inp) as [u|]; [|apply andb_false_r].
    destruct (compareUID (uidByte u) (cred_uid c') 4) eqn:E; [|apply andb_false_r].
    exfalso. apply Hne. exact (uid_distinct _ _ _ E Hcard).
Qed.

Lemma run_single_credential ins c : forall s,
  vipMode s = false ->
  (forall c', c' <> c -> scanned c' s = false) ->
  forallb (fun inp => button_released inp && only_presents c inp) ins = true ->
  vipMode (run ins s) = false /\
  (forall c', c' <> c -> scanned c' (run ins s) = false).
Proof.
  induction ins as [|inp ins IH]; intros s Hv Hf Hall; [split; assumption|].
  cbn in Hall. apply andb_true_iff in Hall as [Hinp Hall].
  apply andb_true_iff in Hinp as [Hrel Hcard].
  destruct (tick_single_credential inp s c Hv Hf Hrel Hcard) as [Hv' Hf'].
  rewrite run_cons. apply IH; assumption.
Qed.

(** ** The distance conversion *)

Lemma holds_on_sound ok n : forall base,
  holds_on ok base n = true ->
  forall x, base <= x < base + Zpos n -> ok x = true.
Proof.
  induction n as [q IH | q IH | ]; intros base H x Hx; cbn [holds_on] in H.
  - apply andb_true_iff in H as [H H2]. apply andb_true_iff in H as [H0 H1].
    destruct (Z.eq_dec x base) as [->|Hne]; [exact H0|].
    destruct (Z_lt_ge_dec x (base + 1 + Zpos q)).
    + apply (IH _ H1). lia.
    + apply (IH _ H2). lia.
  - apply andb_true_iff in H as [H1 H2].
    destruct (Z_lt_ge_dec x (base + Zpos q)).
    + apply (IH _ H1). lia.
    + apply (IH _ H2). lia.
  - assert (x = base) by lia. subst. exact H.
Qed.

Lemma pulse_to_cm_floor prec emax n :
  agrees prec emax n = true ->
  forall P, 0 < P <= Zpos n -> pulse_to_cm prec emax P = floor_cm P.
Proof.
  intros H P HP. unfold agrees in H.
  apply Z.eqb_eq.
  exact (holds_on_sound _ _ _ H P ltac:(lia)).
Qed.

(** Every pulse width [pulseIn] can answer within its timeout. *)
Lemma agrees_single : agrees 24 128 50000 = true.
Proof. vm_compute. reflexivity. Qed.

(** In the double format, every pulse width up to 1500 microseconds, which
    covers the readings up to the motion threshold. *)
Lemma agrees_double : agrees 53 1024 1500 = true.
Proof. vm_compute. reflexivity. Qed.

Lemma cm_single_floor P : 0 < P <= 50000 -> cm_single P = floor_cm P.
Proof. exact (pulse_to_cm_floor 24 128 50000 agrees_single P). Qed.

Lemma cm_double_floor P : 0 < P <= 1500 -> cm_double P = floor_cm P.
Proof. exact (pulse_to_cm_floor 53 1024 1500 agrees_double P). Qed.

(** ** C1 *)

(** C1, evaluated on the code: with the button held low and polled at 0,
    50 and 100 ms, [buttonPressed] answers false, true, true; the second
    [true] belongs to the same physical press as the first. *)
Theorem buttonPressed_refires_while_held :
  fst (polls held_samples initial) = [false; true; true].
Proof. vm_compute. reflexivity. Qed.

(** ** C2 *)

(** C2 fails as stated: VIP mode is on at the start of the iteration at
    30051 ms, expires on lines 110-118 of that same iteration, and the
    motion detection that follows starts an alert with the buzzer high. *)
Lemma vip_expiry_tick_alerts :
  let s := run [press_tick 0; press_tick 50] initial in
  let inp := motion_tick 30051 900 in
  vipMode s = true /\ alertActive s = false /\
  alertActive (tick inp s) = true /\ pinBUZZER (tick inp s) = HIGH /\
  In (EvWrite BUZZER_PIN HIGH) (events (loop inp s)).
Proof. vm_compute. repeat split; try reflexivity. in_list. Qed.

(** C2, amended: when VIP mode is on at the start of an iteration and does
    not expire in it, the iteration starts no alert and never writes HIGH
    to the buzzer, so the buzzer is high afterwards only if it was high
    before; a motion detection (no alert active, no card, cooldown over,
    reading above 0 and at most 20 cm) only switches the LED on and sets
    [lastMotionTime] to the clock value of the iteration. *)
Theorem vip_tick_silent (s : State) (inp : TickIn) :
  vipMode s = true ->
  ul_sub (now inp) (vipStartTime s) <= vipDuration ->
  (alertActive (tick inp s) = true -> alertActive s = true) /\
  ~ In (EvWrite BUZZER_PIN HIGH) (events (loop inp s)) /\
  (pinBUZZER (tick inp s) = HIGH -> pinBUZZER s = HIGH) /\
  (alertActive s = false -> card inp = None ->
   ul_sub (now inp) (lastMotionTime s) > motionCooldown ->
   0 < distance_of (echo inp) <= MOTION_THRESHOLD_CM ->
   tick inp s =
   set_lastMotionTime (now inp) (set_pin LED_PIN HIGH (set_pin TRIG_PIN LOW
     (final_state (buttonPressed (btn_vip inp) s))))).
Proof.
  intros Hv Hle. apply gtb_false_le in Hle.
  pose proof (vipPhase_keeps inp s Hv Hle) as Hk.
  set (s1 := final_state (vipPhase inp s)) in *.
  assert (Hv1 : vipMode s1 = true).
  { rewrite Hk, buttonPressed_frame. destruct s; exact Hv. }
  destruct (vipPhase_frame inp s) as (Ha & Hm & _ & _ & Hb & _). fold s1 in Ha, Hm, Hb.
  destruct (dispatch_vip_silent inp s1 Hv1) as (Hn & Hal & Hbz).
  rewrite tick_split, loop_events_split. fold s1.
  repeat split.
  - rewrite <- Ha. exact Hal.
  - intros H. apply in_app_or in H as [H|H]; [|exact (Hn H)].
    exact (vipPhase_buzzer_silent inp s HIGH H).
  - rewrite <- Hb. exact Hbz.
  - intros Hidle Hc Hcool Hd.
    rewrite (dispatch_vip_motion inp s1 Hv1); try assumption.
    + unfold final_state at 1; cbn [fst snd]. rewrite Hk. reflexivity.
    + congruence.
    + rewrite Hm. apply gtb_true_gt, Hcool.
    + apply in_range_bool, Hd.
Qed.

Lemma vip_tick_silent_witness :
  let s := run [press_tick 0; press_tick 50] initial in
  let inp := motion_tick 2000 900 in
  (vipMode s = true /\ ul_sub (now inp) (vipStartTime s) <= vipDuration) /\
  ~ In (EvWrite BUZZER_PIN HIGH) (events (loop inp s)) /\
  pinLED (tick inp s) = HIGH /\ lastMotionTime (tick inp s) = 2000 /\
  alertActive (tick inp s) = false.
Proof.
  intros s inp.
  assert (Hv : vipMode s = true) by reflexivity.
  assert (Hle : ul_sub (now inp) (vipStartTime s) <= vipDuration)
    by (vm_compute; discriminate).
  destruct (vip_tick_silent s inp Hv Hle) as (_ & Hn & _ & Hm).
  split; [split; assumption|]. split; [exact Hn|].
  rewrite Hm; [repeat split | reflexivity | reflexivity
               | vm_compute; reflexivity | vm_compute; split; [reflexivity | discriminate]].
Defined.

(** ** C3 *)

(** C3 fails as stated: a pulse of 10 microseconds is not a timeout and
    reads as 0 cm, and a pulse of 100 microseconds reads as 1 cm, which is
    not 100 * 0.034 / 2 = 1.7; the double format gives the same. *)
Lemma short_pulse_reads_zero :
  result (readDistanceCM 10 initial) = 0 /\
  result (readDistanceCM 100 initial) = 1 /\
  1000 * result (readDistanceCM 100 initial) <> 17 * 100 /\
  cm_double 10 = 0 /\ cm_double 100 = 1.
Proof. vm_compute. repeat split; try reflexivity. discriminate. Qed.

(** C3, amended: for a pulse of P microseconds, 0 < P <= 50000,
    [readDistanceCM] returns the integer part of P * 0.034 / 2, that is
    of 17 P / 1000 centimetres, which is 0 exactly for the pulses up to 58
    microseconds and never -1; a timeout (pulse 0) returns -1. *)
Theorem readDistanceCM_floor (s : State) (P : Z) :
  0 < P <= 50000 ->
  result (readDistanceCM P s) = floor_cm P /\
  (result (readDistanceCM P s) = 0 <-> P <= 58) /\
  result (readDistanceCM P s) <> -1 /\
  result (readDistanceCM 0 s) = -1.
Proof.
  intros HP.
  assert (E : result (readDistanceCM P s) = floor_cm P).
  { rewrite readDistanceCM_result, distance_of_eq.
    destruct (P =? 0) eqn:E0; [apply Z.eqb_eq in E0; lia|].
    apply cm_single_floor, HP. }
  rewrite E. unfold floor_cm.
  repeat split.
  - intros H0. apply Z.div_small_iff in H0; lia.
  - intros Hle. apply Z.div_small. lia.
  - assert (0 <= 17 * P / 1000) by (apply Z.div_pos; lia). lia.
Qed.

Lemma readDistanceCM_floor_witness :
  0 < 900 <= 50000 /\ result (readDistanceCM 900 initial) = 15 /\
  result (readDistanceCM 58 initial) = 0.
Proof.
  split; [lia|].
  split.
  - exact (eq_trans (proj1 (readDistanceCM_floor initial 900 ltac:(lia))) eq_refl).
  - apply (proj1 (proj2 (readDistanceCM_floor initial 58 ltac:(lia)))). lia.
Defined.

(** ** C4 *)

(** C4 fails as stated: a card outside the allow-list, read while no alert
    is active, switches the LED on and moves [lastMotionTime]. *)
Lemma unknown_card_changes_state :
  let inp := card_tick 5000 unknown_bytes in
  alertActive initial = false /\ knownCard (card_of unknown_bytes) = false /\
  pinLED initial = LOW /\ pinLED (tick inp initial) = HIGH /\
  lastMotionTime initial = 0 /\ lastMotionTime (tick inp initial) = 5000.
Proof. vm_compute. repeat split; reflexivity. Qed.

(** C4, amended: an iteration without active alert that reads a card
    matching none of the three credentials prints the identifier, drives
    the LED high and sets [lastMotionTime] to its clock value; the scan
    flags, [alertActive], [vipMode], the buzzer and all other variables
    stay as lines 96-118 of that iteration left them. *)
Theorem unknown_card_idle (s : State) (inp : TickIn) (u : Uid) :
  alertActive s = false -> card inp = Some u -> knownCard u = false ->
  let s1 := final_state (vipPhase inp s) in
  tick inp s = set_lastMotionTime (now inp) (set_pin LED_PIN HIGH s1) /\
  events (loop inp s) =
    events (vipPhase inp s) ++
    EvCardPoll true :: EvPrint "Card UID: " ::
      uid_text (uidByte u) 0 (uid_size u) ++
      [EvPrintln ""; EvWrite LED_PIN HIGH; EvHaltA; EvDelay 100] /\
  (forall c, scanned c (tick inp s) = scanned c s1) /\
  alertActive (tick inp s) = false /\
  vipMode (tick inp s) = vipMode s1 /\
  pinBUZZER (tick inp s) = pinBUZZER s /\
  pinLED (tick inp s) = HIGH /\
  lastMotionTime (tick inp s) = now inp.
Proof.
  intros Ha Hc Hk s1.
  destruct (vipPhase_frame inp s) as (Ha1 & _ & _ & _ & Hb1 & _). fold s1 in Ha1, Hb1.
  assert (Hd := dispatch_unknown_card inp s1 u ltac:(congruence) Hc Hk).
  rewrite tick_split, loop_events_split. fold s1. rewrite Hd.
  unfold final_state, events; cbn [fst snd].
  destruct s1; cbn in *.
  repeat split; try congruence.
Qed.

Lemma unknown_card_idle_witness :
  let inp := card_tick 5000 unknown_bytes in
  (alertActive initial = false /\ card inp = Some (card_of unknown_bytes) /\
   knownCard (card_of unknown_bytes) = false) /\
  pinLED (tick inp initial) = HIGH /\ lastMotionTime (tick inp initial) = 5000 /\
  scanned Cred1 (tick inp initial) = false.
Proof.
  intros inp.
  assert (H1 : alertActive initial = false) by reflexivity.
  assert (H2 : card inp = Some (card_of unknown_bytes)) by reflexivity.
  assert (H3 : knownCard (card_of unknown_bytes) = false) by reflexivity.
  destruct (unknown_card_idle initial inp _ H1 H2 H3) as (_ & _ & Hs & _ & _ & _ & Hl & Hm).
  split; [repeat split; assumption|].
  split; [exact Hl|]. split; [exact Hm|]. rewrite Hs. reflexivity.
Defined.

(** ** C5 *)

(** C5 fails as stated: the cards of [uid1] and [uid2] are read, an alert
    starts, and the card of [uid3] is read to acknowledge it.  All three
    credentials have been scanned with VIP mode off, but the acknowledging
    scan is not recorded and VIP mode stays off on the next iteration. *)
Lemma scan_during_alert_not_counted :
  let ins := [card_tick 100 uid1; card_tick 300 uid2; motion_tick 2000 900;
              card_tick 2100 uid3] in
  vip_off_throughout initial ins = true /\
  card_read Cred1 initial ins = true /\
  card_read Cred2 initial ins = true /\
  card_read Cred3 initial ins = true /\
  card3Scanned (run ins initial) = false /\
  vipMode (tick (quiet_tick 2400) (run ins initial)) = false.
Proof. vm_compute. repeat split; reflexivity. Qed.

(** C5, amended: when each of the three credentials has been read by the
    card-scan path of lines 160-181 (no alert active in that iteration)
    during a run in which VIP mode stays off, the next iteration switches
    VIP mode on and sets [vipStartTime] to its clock value; a run from
    VIP off in which the button stays released and every card read is the
    one credential [c], the flags of the other two being clear at the
    start, leaves VIP mode off. *)
Theorem auto_vip_after_three_scans
  (s0 : State) (ins : list TickIn) (inp : TickIn) (c : cred) :
  (vip_off_throughout s0 ins = true ->
   (forall c', idle_scanned c' s0 ins = true) ->
   vipMode (tick inp (run ins s0)) = true /\
   vipStartTime (tick inp (run ins s0)) = now inp) /\
  (vipMode s0 = false ->
   (forall c', c' <> c -> scanned c' s0 = false) ->
   forallb (fun i => button_released i && only_presents c i) ins = true ->
   vipMode (run ins s0) = false).
Proof.
  split.
  - intros Hoff Hall.
    assert (Hf : forall c', scanned c' (run ins s0) = true).
    { intros c'. apply scanned_run; [exact Hoff|]. rewrite Hall. apply orb_true_r. }
    pose proof (vip_off_run ins s0 Hoff) as Hv.
    destruct (tick_vip inp (run ins s0)) as [E1 E2]. rewrite E1, E2.
    apply vipPhase_auto; [exact Hv|].
    pose proof (Hf Cred1) as F1. pose proof (Hf Cred2) as F2. pose proof (Hf Cred3) as F3.
    cbn in F1, F2, F3. rewrite F1, F2, F3. reflexivity.
  - intros Hv Hf Hall. exact (proj1 (run_single_credential ins c s0 Hv Hf Hall)).
Qed.

Lemma auto_vip_after_three_scans_witness :
  let ins := [card_tick 100 uid3; card_tick 300 uid1; card_tick 500 uid2] in
  let rep := [card_tick 100 uid2; card_tick 300 uid2; card_tick 500 uid2] in
  (vip_off_throughout initial ins = true /\
   idle_scanned Cred1 initial ins = true /\
   idle_scanned Cred2 initial ins = true /\
   idle_scanned Cred3 initial ins = true) /\
  (vipMode (tick (quiet_tick 700) (run ins initial)) = true /\
   vipStartTime (tick (quiet_tick 700) (run ins initial)) = 700) /\
  vipMode (run rep initial) = false.
Proof.
  intros ins rep.
  assert (Hoff : vip_off_throughout initial ins = true) by reflexivity.
  assert (Hall : forall c', idle_scanned c' initial ins = true)
    by (intros []; reflexivity).
  split; [repeat split; try exact Hoff; apply Hall|].
  split.
  - exact (proj1 (auto_vip_after_three_scans initial ins (quiet_tick 700) Cred2) Hoff Hall).
  - apply (proj2 (auto_vip_after_three_scans initial rep (quiet_tick 700) Cred2)).
    + reflexivity.
    + intros [] H; first [reflexivity | exfalso; apply H; reflexivity].
    + reflexivity.
Defined.

Lemma vipPhase_with_card_echo c e inp s :
  vipPhase (with_card_echo c e inp) s = vipPhase inp s.
Proof. reflexivity. Qed.

(** ** C6 *)

(** C6: an iteration that starts in VIP mode more than 30000 ms after
    [vipStartTime] clears [vipMode] and the three scan flags on lines
    110-118 and, when no alert is active, writes LOW to the LED there;
    [vipMode] is still false when the iteration ends.  Every iteration
    that takes [vipMode] from true to false has cleared the three flags at
    that point, and a flag that is set when the iteration ends is that of
    a card read later in the same iteration. *)
Theorem vip_expiry_clears (s : State) (inp : TickIn) :
  vipMode s = true ->
  let s1 := final_state (vipPhase inp s) in
  (ul_sub (now inp) (vipStartTime s) > vipDuration ->
   vipMode s1 = false /\
   (forall c, scanned c s1 = false) /\
   (alertActive s = false ->
    pinLED s1 = LOW /\ In (EvWrite LED_PIN LOW) (events (loop inp s))) /\
   vipMode (tick inp s) = false) /\
  (vipMode (tick inp s) = false ->
   (forall c, scanned c s1 = false) /\
   (forall c, scanned c (tick inp s) = true -> idle_scan c inp s = true)).
Proof.
  intros Hv s1. split.
  - intros Hgt. apply gtb_true_gt in Hgt.
    destruct (vipPhase_expires inp s Hv Hgt) as (H0 & H1 & H2 & H3 & Hled & _).
    fold s1 in H0, H1, H2, H3, Hled.
    repeat split.
    + exact H0.
    + intros []; assumption.
    + apply Hled; assumption.
    + rewrite loop_events_split. apply in_or_app. left. apply Hled; assumption.
    + rewrite (proj1 (tick_vip inp s)). exact H0.
  - intros Hoff. rewrite (proj1 (tick_vip inp s)) in Hoff.
    pose proof (vipPhase_cleared inp s Hv Hoff) as Hc. fold s1 in Hc.
    split; [exact Hc|].
    intros c. rewrite tick_split, dispatch_scanned, idle_scan_after_vipPhase.
    fold s1. rewrite Hc. cbn. tauto.
Qed.

Lemma vip_expiry_clears_witness :
  let s := run [card_tick 10 uid1; press_tick 100; press_tick 150] initial in
  let inp := quiet_tick 30151 in
  (vipMode s = true /\ ul_sub (now inp) (vipStartTime s) > vipDuration /\
   card1Scanned s = true /\ pinLED s = HIGH) /\
  vipMode (tick inp s) = false /\
  card1Scanned (tick inp s) = false /\
  In (EvWrite LED_PIN LOW) (events (loop inp s)).
Proof.
  intros s inp.
  assert (Hv : vipMode s = true) by reflexivity.
  assert (Hgt : ul_sub (now inp) (vipStartTime s) > vipDuration) by reflexivity.
  destruct (vip_expiry_clears s inp Hv) as [H _].
  destruct (H Hgt) as (_ & _ & Hled & Hoff).
  split; [repeat split; assumption|].
  split; [exact Hoff|]. split; [reflexivity|].
  exact (proj2 (Hled eq_refl)).
Defined.

(** ** C7 *)

(** C7 fails as stated: the alert is acknowledged with the card of [uid2],
    whose flag was clear before the iteration and is still clear after
    it. *)
Lemma ack_scan_sets_no_flag :
  let s := run [motion_tick 2000 900] initial in
  let inp := card_tick 2100 uid2 in
  alertActive s = true /\ vipMode s = false /\
  alertActive (tick inp s) = false /\ pinBUZZER (tick inp s) = LOW /\
  pinLED (tick inp s) = HIGH /\ card2Scanned (tick inp s) = false.
Proof. vm_compute. repeat split; reflexivity. Qed.

(** C7, amended: an iteration that starts with an alert active and VIP
    mode off, in which [buttonPressed] reports no press at the
    acknowledgment check and the card of [uid2] is read, clears the alert, writes LOW to the buzzer
    and HIGH to the LED, and leaves the three scan flags as they were: the
    flag of [uid2] is true afterwards exactly when it was true before. *)
Theorem ack_by_card (s : State) (inp : TickIn) (u : Uid) :
  alertActive s = true -> vipMode s = false ->
  result (buttonPressed (btn_ack inp) (final_state (vipPhase inp s))) = false ->
  card inp = Some u -> compareUID (uidByte u) uid2 4 = true ->
  alertActive (tick inp s) = false /\
  pinBUZZER (tick inp s) = LOW /\
  pinLED (tick inp s) = HIGH /\
  In (EvWrite BUZZER_PIN LOW) (events (loop inp s)) /\
  In (EvWrite LED_PIN HIGH) (events (loop inp s)) /\
  (forall c, scanned c (tick inp s) = scanned c s).
Proof.
  intros Ha Hv Hb2 Hc Hu.
  set (s1 := final_state (vipPhase inp s)) in *.
  destruct (vipPhase_frame inp s) as (Ha1 & _). fold s1 in Ha1.
  assert (Hk : knownCard u = true).
  { unfold knownCard. rewrite Hu. apply orb_true_iff; left; apply orb_true_r. }
  assert (Hd := dispatch_ack_card inp s1 u ltac:(congruence) Hb2 Hc Hk).
  assert (Hs : forall c, scanned c (tick inp s) = scanned c s).
  { intros c. rewrite (tick_scanned_vip_off inp s c Hv).
    unfold idle_scan. rewrite Ha. apply orb_false_r. }
  assert (Ht : tick inp s = final_state (dispatch inp s1)) by apply tick_split.
  rewrite Hd in Ht. unfold final_state at 1 in Ht; cbn [fst snd] in Ht.
  rewrite buttonPressed_frame in Ht.
  assert (He : events (loop inp s) =
               events (vipPhase inp s) ++ events (dispatch inp s1))
    by apply loop_events_split.
  rewrite Hd in He. unfold events at 3 in He; cbn [snd] in He.
  repeat split; try exact Hs.
  - rewrite Ht. destruct s1; reflexivity.
  - rewrite Ht. destruct s1; reflexivity.
  - rewrite Ht. destruct s1; reflexivity.
  - rewrite He. apply in_or_app; right; in_list.
  - rewrite He. apply in_or_app; right; in_list.
Qed.

Lemma ack_by_card_witness :
  let s := run [card_tick 100 uid2; motion_tick 2000 900] initial in
  let inp := card_tick 2100 uid2 in
  (alertActive s = true /\ vipMode s = false /\ card2Scanned s = true) /\
  alertActive (tick inp s) = false /\ pinBUZZER (tick inp s) = LOW /\
  pinLED (tick inp s) = HIGH /\ card2Scanned (tick inp s) = true.
Proof.
  intros s inp.
  assert (Ha : alertActive s = true) by reflexivity.
  assert (Hv : vipMode s = false) by reflexivity.
  assert (Hb : result (buttonPressed (btn_ack inp) (final_state (vipPhase inp s))) = false)
    by reflexivity.
  assert (Hc : card inp = Some (card_of uid2)) by reflexivity.
  assert (Hu : compareUID (uidByte (card_of uid2)) uid2 4 = true) by reflexivity.
  destruct (ack_by_card s inp _ Ha Hv Hb Hc Hu) as (H1 & H2 & H3 & _ & _ & Hs).
  split; [repeat split; assumption|].
  split; [exact H1|]. split; [exact H2|]. split; [exact H3|].
  exact (eq_trans (Hs Cred2) eq_refl).
Defined.

(** ** C8 *)

Lemma loop_ack_button_indep inp s c e :
  alertActive s = true ->
  result (buttonPressed (btn_ack inp) (final_state (vipPhase inp s))) = true ->
  loop (with_card_echo c e inp) s = loop inp s.
Proof.
  intros Ha Hb.
  destruct (vipPhase_frame inp s) as (Ha1 & _). rewrite Ha in Ha1.
  unfold loop, bind. rewrite vipPhase_with_card_echo.
  destruct (vipPhase inp s) as [[[] s1] t1]; unfold final_state in *; cbn [fst snd] in *.
  rewrite (dispatch_ack_button inp s1 Ha1 Hb).
  rewrite (dispatch_ack_button (with_card_echo c e inp) s1 Ha1 Hb).
  reflexivity.
Qed.

(** C8: an iteration that starts with an alert active, in which
    [buttonPressed] reports a press at the acknowledgment check while the
    reader holds an allow-listed card, clears the alert, writes LOW to the
    buzzer and the VIP courtesy level to the LED, and returns: after lines
    96-118 its only events are the button read, the two pin writes, the
    log line and the 200 ms delay, the reader and the range sensor are not
    consulted, and their answers have no influence on the iteration. *)
Theorem ack_by_button_first (s : State) (inp : TickIn) (u : Uid) :
  alertActive s = true ->
  let s1 := final_state (vipPhase inp s) in
  result (buttonPressed (btn_ack inp) s1) = true ->
  card inp = Some u -> knownCard u = true ->
  tick inp s =
    set_pin LED_PIN (if vipMode s1 then HIGH else LOW) (set_pin BUZZER_PIN LOW
      (set_alertActive false (final_state (buttonPressed (btn_ack inp) s1)))) /\
  alertActive (tick inp s) = false /\
  pinBUZZER (tick inp s) = LOW /\
  pinLED (tick inp s) = (if vipMode s1 then HIGH else LOW) /\
  events (loop inp s) =
    events (vipPhase inp s) ++
    [EvReadButton (raw (btn_ack inp)); EvWrite BUZZER_PIN LOW;
     EvWrite LED_PIN (if vipMode s1 then HIGH else LOW);
     EvPrintln "Alert acknowledged via button."; EvDelay 200] /\
  (forall b, ~ In (EvCardPoll b) (events (loop inp s))) /\
  (forall d, ~ In (EvPulseIn d) (events (loop inp s))) /\
  (forall c e, loop (with_card_echo c e inp) s = loop inp s).
Proof.
  intros Ha s1 Hb _ _.
  destruct (vipPhase_frame inp s) as (Ha1 & _). fold s1 in Ha1.
  assert (Ha1' : alertActive s1 = true) by congruence.
  assert (Hd := dispatch_ack_button inp s1 Ha1' Hb).
  assert (Ht : tick inp s = final_state (dispatch inp s1)) by apply tick_split.
  rewrite Hd in Ht. unfold final_state at 1 in Ht; cbn [fst snd] in Ht.
  assert (He : events (loop inp s) =
               events (vipPhase inp s) ++ events (dispatch inp s1))
    by apply loop_events_split.
  rewrite Hd in He. unfold events at 3 in He; cbn [snd] in He.
  assert (Hvev : forall e, In e (events (vipPhase inp s)) ->
                 (forall b, e <> EvCardPoll b) /\ (forall d, e <> EvPulseIn d)).
  { clear. intros e. destruct s, inp as [n [r1 e1 t1] b2 c ec].
    sketch_cases; intros H; split; intros x;
      repeat (destruct H as [H|H]; [subst e; discriminate|]); contradiction H. }
  assert (Hind := fun c e => loop_ack_button_indep inp s c e Ha Hb).
  assert (Hfields :
    alertActive (tick inp s) = false /\ pinBUZZER (tick inp s) = LOW /\
    pinLED (tick inp s) = (if vipMode s1 then HIGH else LOW)).
  { rewrite Ht, buttonPressed_frame. clearbody s1.
    destruct s1 as [? ? ? ? ? v ? ? ? ? ? ? ? ?]; destruct v; repeat split. }
  destruct Hfields as (F1 & F2 & F3).
  repeat split; try assumption.
  - intros b H. rewrite He in H. apply in_app_or in H as [H|H].
    + exact (proj1 (Hvev _ H) b eq_refl).
    + repeat (destruct H as [H|H]; [discriminate|]). contradiction H.
  - intros d H. rewrite He in H. apply in_app_or in H as [H|H].
    + exact (proj2 (Hvev _ H) d eq_refl).
    + repeat (destruct H as [H|H]; [discriminate|]). contradiction H.
Qed.

Lemma ack_by_button_first_witness :
  let s := run [motion_tick 2000 900; press_tick 2050] initial in
  let inp := with_card_echo (Some (card_of uid1)) 900 (press_tick 2100) in
  (alertActive s = true /\
   result (buttonPressed (btn_ack inp) (final_state (vipPhase inp s))) = true /\
   knownCard (card_of uid1) = true) /\
  alertActive (tick inp s) = false /\ pinBUZZER (tick inp s) = LOW /\
  pinLED (tick inp s) = HIGH /\
  ~ In (EvCardPoll true) (events (loop inp s)).
Proof.
  intros s inp.
  assert (Ha : alertActive s = true) by reflexivity.
  assert (Hb : result (buttonPressed (btn_ack inp) (final_state (vipPhase inp s))) = true)
    by reflexivity.
  assert (Hc : card inp = Some (card_of uid1)) by reflexivity.
  assert (Hk : knownCard (card_of uid1) = true) by reflexivity.
  destruct (ack_by_button_first s inp _ Ha Hb Hc Hk) as (_ & H1 & H2 & H3 & _ & Hn & _).
  split; [repeat split; assumption|].
  split; [exact H1|]. split; [exact H2|]. split; [exact H3|]. exact (Hn true).
Defined.

(** ** C9 *)

(** A detection starts an alert when the three scan flags are not all
    set. *)
Lemma motion_alert_unarmed (s : State) (inp : TickIn) :
  alertActive s = false -> vipMode s = false ->
  card1Scanned s && card2Scanned s && card3Scanned s = false ->
  result (buttonPressed (btn_vip inp) s) = false ->
  card inp = None ->
  ul_sub (now inp) (lastMotionTime s) > motionCooldown ->
  0 < distance_of (echo inp) <= MOTION_THRESHOLD_CM ->
  alertActive (tick inp s) = true /\
  pinBUZZER (tick inp s) = HIGH /\
  buzzerState (tick inp s) = true /\
  lastBuzzerToggle (tick inp s) = now inp /\
  pinLED (tick inp s) = HIGH /\
  lastMotionTime (tick inp s) = now inp /\
  In (EvWrite BUZZER_PIN HIGH) (events (loop inp s)) /\
  In (EvWrite LED_PIN HIGH) (events (loop inp s)).
Proof.
  intros Ha Hv Hf Hb Hc Hcool Hd.
  pose proof (vipPhase_quiet inp s Hv Hb Hf) as Hq.
  destruct (vipPhase_frame inp s) as (Ha1 & Hm1 & _).
  assert (Hv1 : vipMode (final_state (vipPhase inp s)) = false).
  { rewrite Hq, buttonPressed_frame. destruct s; exact Hv. }
  destruct (dispatch_motion_alert inp (final_state (vipPhase inp s)))
    as (Ht & E1 & E2); try assumption.
  { congruence. }
  { rewrite Hm1. apply gtb_true_gt, Hcool. }
  { apply in_range_bool, Hd. }
  rewrite tick_split, loop_events_split, Ht.
  destruct (final_state (vipPhase inp s)); cbn.
  repeat split; try reflexivity; apply in_or_app; right; assumption.
Qed.

Lemma last_tick_snoc (ins : list TickIn) (prev : TickIn) :
  last_tick (ins ++ [prev]) = Some prev.
Proof. unfold last_tick. rewrite map_app. apply last_last. Qed.

Lemma run_snoc (ins : list TickIn) (prev : TickIn) (s : State) :
  run (ins ++ [prev]) s = tick prev (run ins s).
Proof. rewrite run_app. reflexivity. Qed.

Lemma dispatch_card_idle_time inp s u :
  alertActive s = false -> card inp = Some u ->
  lastMotionTime (final_state (dispatch inp s)) = now inp.
Proof.
  destruct s as [a ? ? ? ? ? ? ? ? ? ? ? ? ?], inp as [n b1 b2 c e].
  cbn. intros -> ->.
  unfold_sketch; cbn. rewrite print_uid_from_run; cbn.
  repeat (case_if; cbn); reflexivity.
Qed.

Lemma idle_scan_sets_time inp s c :
  idle_scan c inp s = true -> lastMotionTime (tick inp s) = now inp.
Proof.
  unfold idle_scan, presents. intros H.
  apply andb_true_iff in H as [Ha Hp]. apply negb_true_iff in Ha.
  destruct (card inp) as [u|] eqn:Hc; [|discriminate].
  rewrite tick_split.
  destruct (vipPhase_frame inp s) as (Ha1 & _).
  apply (dispatch_card_idle_time inp _ u); congruence.
Qed.

(** An iteration that ends with all three flags set and VIP mode off has
    read a card on the idle path, whatever state it started from: it has
    set [lastMotionTime] to its clock value (and ended in [delay(100)]). *)
Lemma armed_after_scan prev s0 :
  vipMode (tick prev s0) = false ->
  (forall c, scanned c (tick prev s0) = true) ->
  lastMotionTime (tick prev s0) = now prev.
Proof.
  intros Hoff Hall.
  destruct (vipMode s0) eqn:Hv.
  - apply (idle_scan_sets_time prev s0 Cred1).
    pose proof (Hall Cred1) as H1.
    rewrite tick_split, dispatch_scanned, idle_scan_after_vipPhase in H1.
    rewrite (proj1 (tick_vip prev s0)) in Hoff.
    rewrite (vipPhase_cleared prev s0 Hv Hoff Cred1) in H1. exact H1.
  - assert (Harm : card1Scanned s0 && card2Scanned s0 && card3Scanned s0 = false).
    { destruct (card1Scanned s0 && card2Scanned s0 && card3Scanned s0) eqn:E;
        [|reflexivity].
      destruct (vipPhase_auto prev s0 Hv E) as [Hon _].
      rewrite (proj1 (tick_vip prev s0)) in Hoff. congruence. }
    assert (Hc : exists c, scanned c s0 = false).
    { destruct (card1Scanned s0) eqn:E1; [|exists Cred1; exact E1].
      destruct (card2Scanned s0) eqn:E2; [|exists Cred2; exact E2].
      destruct (card3Scanned s0) eqn:E3; [discriminate Harm | exists Cred3; exact E3]. }
    destruct Hc as [c Hc].
    apply (idle_scan_sets_time prev s0 c).
    pose proof (Hall c) as H1.
    rewrite (tick_scanned_vip_off prev s0 c Hv), Hc in H1. exact H1.
Qed.

(** C9: in a run of the sketch from the state [setup] leaves, an iteration
    that starts at most 1500 ms after the one before it, with no alert
    active and VIP mode off, in which [buttonPressed] reports no press,
    the reader has no card, more than 1500 ms have passed since
    [lastMotionTime] and the reading is above 0 and at most 20 cm (15 cm,
    say), ends with the alert active, the buzzer and the LED high,
    [buzzerState] true and [lastBuzzerToggle] and [lastMotionTime] at its
    clock value.  The bound on the start of the iteration holds on the
    board, where an iteration takes far less than 1500 ms (its longest
    pause is [delay(200)] and the echo wait is 50 ms at most). *)
Theorem motion_alert_in_run (ins : list TickIn) (inp : TickIn) :
  let s := run ins initial in
  (forall prev, last_tick ins = Some prev ->
                ul_sub (now inp) (now prev) <= motionCooldown) ->
  alertActive s = false -> vipMode s = false ->
  result (buttonPressed (btn_vip inp) s) = false ->
  card inp = None ->
  ul_sub (now inp) (lastMotionTime s) > motionCooldown ->
  0 < distance_of (echo inp) <= MOTION_THRESHOLD_CM ->
  alertActive (tick inp s) = true /\
  pinBUZZER (tick inp s) = HIGH /\
  buzzerState (tick inp s) = true /\
  lastBuzzerToggle (tick inp s) = now inp /\
  pinLED (tick inp s) = HIGH /\
  lastMotionTime (tick inp s) = now inp /\
  In (EvWrite BUZZER_PIN HIGH) (events (loop inp s)) /\
  In (EvWrite LED_PIN HIGH) (events (loop inp s)).
Proof.
  intros s Hpace Ha Hv Hb Hc Hcool Hd.
  apply motion_alert_unarmed; try assumption.
  destruct (card1Scanned s && card2Scanned s && card3Scanned s) eqn:Harm;
    [exfalso | reflexivity].
  apply andb_true_iff in Harm as [Harm H3]. apply andb_true_iff in Harm as [H1 H2].
  assert (Hall : forall c, scanned c s = true) by (intros []; assumption).
  destruct ins as [|i0 rest] using rev_ind.
  - discriminate H1.
  - clear IHrest. subst s. rewrite run_snoc in *.
    rewrite (armed_after_scan _ _ Hv Hall) in Hcool.
    specialize (Hpace i0 (last_tick_snoc rest i0)). lia.
Qed.

Lemma motion_alert_in_run_witness :
  let ins := [card_tick 100 uid1; card_tick 300 uid2; quiet_tick 1000] in
  let s := run ins initial in
  let inp := motion_tick 2000 900 in
  (last_tick ins = Some (quiet_tick 1000) /\
   ul_sub (now inp) (now (quiet_tick 1000)) <= motionCooldown /\
   alertActive s = false /\ vipMode s = false /\
   ul_sub (now inp) (lastMotionTime s) > motionCooldown /\
   distance_of (echo inp) = 15) /\
  alertActive (tick inp s) = true /\ pinBUZZER (tick inp s) = HIGH /\
  pinLED (tick inp s) = HIGH /\ lastMotionTime (tick inp s) = 2000.
Proof.
  intros ins s inp.
  assert (Hgap : ul_sub (now inp) (now (quiet_tick 1000)) <= motionCooldown)
    by (vm_compute; discriminate).
  assert (Hpace : forall prev, last_tick ins = Some prev ->
                  ul_sub (now inp) (now prev) <= motionCooldown).
  { intros prev H. injection H as <-. exact Hgap. }
  assert (Hcool : ul_sub (now inp) (lastMotionTime s) > motionCooldown)
    by reflexivity.
  assert (Hd : 0 < distance_of (echo inp) <= MOTION_THRESHOLD_CM)
    by (vm_compute; split; [reflexivity | discriminate]).
  destruct (motion_alert_in_run ins inp Hpace eq_refl eq_refl eq_refl eq_refl Hcool Hd)
    as (H1 & H2 & _ & _ & H3 & H4 & _).
  split; [repeat split; try assumption; reflexivity|].
  split; [exact H1|]. split; [exact H2|]. split; [exact H3|]. exact H4.
Defined.

(** The bound on the start of the iteration is needed in this model, where
    the clock values are inputs: with 1600 ms between the iteration that
    reads the third card and the next one, the three flags are set with
    VIP mode off and the cooldown over, line 104 switches VIP mode on and
    the reading of 15 cm starts no alert. *)
Lemma motion_after_three_scans_no_alert :
  let s := run [card_tick 100 uid1; card_tick 300 uid2; card_tick 500 uid3] initial in
  let inp := motion_tick 2100 900 in
  alertActive s = false /\ vipMode s = false /\
  result (buttonPressed (btn_vip inp) s) = false /\ card inp = None /\
  ul_sub (now inp) (lastMotionTime s) > motionCooldown /\
  distance_of (echo inp) = 15 /\
  alertActive (tick inp s) = false /\ pinBUZZER (tick inp s) = LOW.
Proof. vm_compute. repeat split; reflexivity. Qed.

(** ** C10 *)

(** C10: after every run from the state [setup] leaves, the buzzer is high
    only while an alert is active.  An iteration that writes HIGH to the
    buzzer ends with the alert active and VIP mode off, and an iteration
    that ends an alert leaves the buzzer low, having written LOW to it. *)
Theorem buzzer_only_while_alerting (ins : list TickIn) (s : State) (inp : TickIn) :
  (pinBUZZER (run ins initial) = HIGH -> alertActive (run ins initial) = true) /\
  (In (EvWrite BUZZER_PIN HIGH) (events (loop inp s)) ->
   alertActive (tick inp s) = true /\ vipMode (tick inp s) = false) /\
  (alertActive s = true -> alertActive (tick inp s) = false ->
   pinBUZZER (tick inp s) = LOW /\
   In (EvWrite BUZZER_PIN LOW) (events (loop inp s))).
Proof.
  repeat split.
  - apply (run_buzzer_inv ins initial). intros H; discriminate H.
  - rewrite loop_events_split, in_app_iff in H. destruct H as [H|H].
    + destruct (vipPhase_buzzer_silent inp s HIGH H).
    + rewrite tick_split. apply (dispatch_buzzer_high _ _ H).
  - rewrite loop_events_split, in_app_iff in H. destruct H as [H|H].
    + destruct (vipPhase_buzzer_silent inp s HIGH H).
    + rewrite tick_split. apply (dispatch_buzzer_high _ _ H).
  - rewrite tick_split in *. apply dispatch_alert_cleared; [|assumption].
    destruct (vipPhase_frame inp s) as (Ha1 & _). congruence.
  - rewrite loop_events_split. apply in_or_app; right.
    rewrite tick_split in *. apply dispatch_alert_cleared; [|assumption].
    destruct (vipPhase_frame inp s) as (Ha1 & _). congruence.
Qed.

Lemma buzzer_only_while_alerting_witness :
  let ins := [motion_tick 2000 900] in
  let s := run ins initial in
  let inp := card_tick 2100 uid3 in
  pinBUZZER s = HIGH /\ alertActive s = true /\
  alertActive (tick inp s) = false /\ pinBUZZER (tick inp s) = LOW.
Proof.
  intros ins s inp.
  destruct (buzzer_only_while_alerting ins s inp) as (H1 & _ & H3).
  assert (Hb : pinBUZZER s = HIGH) by reflexivity.
  assert (Ha : alertActive s = true) by exact (H1 Hb).
  assert (Hc : alertActive (tick inp s) = false) by reflexivity.
  split; [exact Hb|]. split; [exact Ha|]. split; [exact Hc|].
  exact (proj1 (H3 Ha Hc)).
Defined.

(** * Further properties of the sketch *)

(** ** [compareUID] *)

Lemma compareUID_from_spec a b n : forall i,
  compareUID_from a b i n = true <->
  (forall k, (i <= k < i + n)%nat -> nth k a 0 = nth k b 0).
Proof.
  induction n as [|n IH]; intros i; cbn [compareUID_from].
  - split; [intros _ k Hk; lia | reflexivity].
  - destruct (nth i a 0 =? nth i b 0) eqn:E; cbn [negb].
    + apply Z.eqb_eq in E. rewrite IH. split.
      * intros H k Hk. destruct (Nat.eq_dec k i) as [->|Hne]; [exact E|].
        apply H. lia.
      * intros H k Hk. apply H. lia.
    + apply Z.eqb_neq in E. split; [discriminate|].
      intros H. exfalso. apply E, H. lia.
Qed.

(** X1: [compareUID a b size] answers true exactly when the two buffers
    agree on every index below [size]; with [size] 0 it answers true. *)
Theorem compareUID_prefix (a b : list Z) (size : nat) :
  compareUID a b size = true <->
  (forall k, (k < size)%nat -> nth k a 0 = nth k b 0).
Proof.
  unfold compareUID. rewrite compareUID_from_spec.
  split; intros H k Hk; apply H; lia.
Qed.

Lemma firstn_4_nth (l : list Z) (w x y z : Z) :
  (4 <= List.length l)%nat ->
  (firstn 4 l = [w; x; y; z] <->
   nth 0 l 0 = w /\ nth 1 l 0 = x /\ nth 2 l 0 = y /\ nth 3 l 0 = z).
Proof.
  destruct l as [|a [|b [|c [|d l]]]]; cbn; try lia. intros _.
  split.
  - intros H; injection H; auto.
  - intros (-> & -> & -> & ->). reflexivity.
Qed.

Lemma compareUID_4 (l : list Z) (w x y z : Z) :
  (4 <= List.length l)%nat ->
  (compareUID l [w; x; y; z] 4 = true <-> firstn 4 l = [w; x; y; z]).
Proof.
  intros Hl. unfold compareUID.
  rewrite compareUID_from_spec, (firstn_4_nth l w x y z Hl).
  split.
  - intros H. repeat split; [apply (H 0%nat) | apply (H 1%nat) | apply (H 2%nat) | apply (H 3%nat)]; lia.
  - intros (H0 & H1 & H2 & H3) k Hk.
    destruct k as [|[|[|[|k]]]]; cbn; try assumption; lia.
Qed.

(** X2: a card is accepted exactly when the first four bytes of the
    reader's buffer are those of [uid1], [uid2] or [uid3]; the length the
    reader reports and the bytes after the fourth play no part. *)
Theorem knownCard_first_four (u : Uid) :
  (4 <= List.length (uidByte u))%nat ->
  (knownCard u = true <->
   firstn 4 (uidByte u) = uid1 \/ firstn 4 (uidByte u) = uid2 \/
   firstn 4 (uidByte u) = uid3).
Proof.
  intros Hl. unfold knownCard. rewrite !orb_true_iff.
  unfold uid1, uid2, uid3. rewrite !(compareUID_4 _ _ _ _ _ Hl). tauto.
Qed.

Lemma knownCard_first_four_witness :
  let u := {| uid_size := 7; uidByte := uid2 ++ [0x11; 0x22; 0x33; 0; 0; 0] |} in
  (4 <= List.length (uidByte u))%nat /\ knownCard u = true.
Proof.
  intros u. assert (Hl : (4 <= List.length (uidByte u))%nat) by (cbn; lia).
  split; [exact Hl|].
  apply (proj2 (knownCard_first_four u Hl)). right; left; reflexivity.
Defined.

(** ** [buttonPressed] *)

(** What a call of [buttonPressed] does to the state. *)
Lemma buttonPressed_run (b : ButtonSample) (s : State) :
  buttonPressed b s =
  (result (buttonPressed b s),
   set_lastState (raw b)
     (set_lastBounce
        (if level_eqb (raw b) (lastState s) then lastBounce s else t_edge b) s),
   [EvReadButton (raw b)]).
Proof.
  destruct s as [? ? ? ? ? ? ? ? ? lb ls ? ? ?], b as [r e t].
  destruct r, ls; unfold_sketch; cbn;
    repeat (case_if; cbn); rewrite ?andb_false_r in *; try discriminate; reflexivity.
Qed.

(** X3: a call of [buttonPressed] leaves [lastState] equal to the level it
    read, whether or not it reports a press (the store on line 67 writes
    the value line 63 has stored); [lastBounce] moves to the clock value
    of line 62 exactly when the level differs from the previous
    [lastState]; nothing else changes and the only event is the pin
    read. *)
Theorem buttonPressed_tracks_level (b : ButtonSample) (s : State) :
  let s' := final_state (buttonPressed b s) in
  lastState s' = raw b /\
  lastBounce s' =
    (if level_eqb (raw b) (lastState s) then lastBounce s else t_edge b) /\
  s' = set_lastState (raw b) (set_lastBounce (lastBounce s') s) /\
  events (buttonPressed b s) = [EvReadButton (raw b)].
Proof.
  cbv zeta. rewrite (buttonPressed_run b s).
  unfold final_state, events; cbn [fst snd].
  destruct s; repeat split.
Qed.

Lemma buttonPressed_result (b : ButtonSample) (s : State) :
  result (buttonPressed b s) =
  (ul_sub (t_test b)
     (if level_eqb (raw b) (lastState s) then lastBounce s else t_edge b) >? 40)
  && level_eqb (raw b) LOW.
Proof.
  destruct s as [? ? ? ? ? ? ? ? ? lb ls ? ? ?], b as [r e t].
  destruct r, ls; unfold_sketch; cbn;
    repeat (case_if; cbn); reflexivity.
Qed.

(** [buttonPressed] reports a press exactly when the level read is LOW
    and more than 40 ms (modulo 2^32) separate the clock value of line 66
    from the last level change it recorded, the change of this very call
    included. *)
Lemma buttonPressed_fires_iff (b : ButtonSample) (s : State) :
  result (buttonPressed b s) = true <->
  raw b = LOW /\
  ul_sub (t_test b) (lastBounce (final_state (buttonPressed b s))) > 40.
Proof.
  rewrite buttonPressed_result.
  rewrite (buttonPressed_run b s) at 1.
  unfold final_state; cbn [fst snd].
  replace (lastBounce (set_lastState (raw b) (set_lastBounce
             (if level_eqb (raw b) (lastState s) then lastBounce s else t_edge b) s)))
    with (if level_eqb (raw b) (lastState s) then lastBounce s else t_edge b)
    by (destruct s; reflexivity).
  rewrite andb_true_iff, Z.gtb_gt.
  destruct (raw b); cbn; intuition congruence.
Qed.

Lemma polls_held bs t0 : forall s,
  lastState s = LOW -> lastBounce s = t0 -> all_low bs = true ->
  fst (polls bs s) = map (fun b => ul_sub (t_test b) t0 >? 40) bs.
Proof.
  induction bs as [|b bs IH]; intros s Hs Hb Hall; [reflexivity|].
  cbn in Hall. apply andb_true_iff in Hall as [Hlow Hall].
  cbn [polls map].
  rewrite (buttonPressed_run b s).
  unfold final_state at 1, result at 1; cbn [fst snd].
  destruct (raw b) eqn:Er; [|discriminate].
  assert (Hst : lastBounce (final_state (buttonPressed b s)) = t0).
  { rewrite (buttonPressed_run b s). unfold final_state; cbn [fst snd].
    rewrite Er, Hs. destruct s; cbn in *. exact Hb. }
  specialize (IH (set_lastState LOW
       (set_lastBounce (if level_eqb LOW (lastState s) then lastBounce s else t_edge b) s))).
  destruct (polls bs _) as [rs s'] eqn:Ep. cbn [fst] in *.
  rewrite IH; [| destruct s; reflexivity | rewrite Hs; destruct s; cbn in *; exact Hb | exact Hall].
  f_equal.
  destruct (result (buttonPressed b s)) eqn:R.
  - apply buttonPressed_fires_iff in R as [_ R]. rewrite Hst in R.
    symmetry. apply Z.gtb_gt. exact R.
  - symmetry. apply not_true_is_false. intros C. apply Z.gtb_gt in C.
    assert (result (buttonPressed b s) = true)
      by (apply buttonPressed_fires_iff; rewrite Hst; split; [exact Er | exact C]).
    congruence.
Qed.

(** X4: a press that starts from the released button (first poll [b0],
    level LOW at every poll) is reported at exactly those polls whose
    clock value is more than 40 ms after the one at which [b0] saw the
    edge: at none of them for a press of 40 ms or less, and at every one
    of them after that for as long as the button is held. *)
Theorem press_reported_after_40ms (b0 : ButtonSample) (bs : list ButtonSample) (s : State) :
  lastState s = HIGH -> all_low (b0 :: bs) = true ->
  fst (polls (b0 :: bs) s) =
  map (fun b => ul_sub (t_test b) (t_edge b0) >? 40) (b0 :: bs).
Proof.
  intros Hs Hall. pose proof Hall as Hall'.
  cbn in Hall. apply andb_true_iff in Hall as [Hlow Hall].
  destruct (raw b0) eqn:Er; [|discriminate].
  cbn [polls map].
  pose proof (buttonPressed_run b0 s) as Ht.
  rewrite Er, Hs in Ht. cbn [level_eqb] in Ht.
  assert (Hf : final_state (buttonPressed b0 s) =
               set_lastState LOW (set_lastBounce (t_edge b0) s))
    by (rewrite Ht; reflexivity).
  rewrite Hf.
  pose proof (polls_held bs (t_edge b0) (set_lastState LOW (set_lastBounce (t_edge b0) s))) as Hp.
  destruct (polls bs _) as [rs s'] eqn:Ep. cbn [fst] in *.
  rewrite Hp; [| destruct s; reflexivity | destruct s; reflexivity | exact Hall].
  f_equal.
  destruct (result (buttonPressed b0 s)) eqn:R.
  - apply buttonPressed_fires_iff in R as [_ R]. rewrite Hf in R.
    replace (lastBounce (set_lastState LOW (set_lastBounce (t_edge b0) s)))
      with (t_edge b0) in R by (destruct s; reflexivity).
    symmetry. apply Z.gtb_gt. exact R.
  - symmetry. apply not_true_is_false. intros C. apply Z.gtb_gt in C.
    assert (result (buttonPressed b0 s) = true).
    { apply buttonPressed_fires_iff. rewrite Hf.
      replace (lastBounce (set_lastState LOW (set_lastBounce (t_edge b0) s)))
        with (t_edge b0) by (destruct s; reflexivity).
      split; [exact Er | exact C]. }
    congruence.
Qed.

Lemma press_reported_after_40ms_witness :
  let bs := [sample LOW 1020; sample LOW 1040; sample LOW 1041; sample LOW 1100] in
  (lastState initial = HIGH /\ all_low (sample LOW 1000 :: bs) = true) /\
  fst (polls (sample LOW 1000 :: bs) initial) = [false; false; false; true; true].
Proof.
  intros bs.
  assert (Hs : lastState initial = HIGH) by reflexivity.
  assert (Ha : all_low (sample LOW 1000 :: bs) = true) by reflexivity.
  split; [split; assumption|].
  exact (eq_trans (press_reported_after_40ms (sample LOW 1000) bs initial Hs Ha) eq_refl).
Defined.

(** ** The VIP window *)

Lemma vipPhase_vip inp s :
  let pressed := result (buttonPressed (btn_vip inp) s) in
  let armed := card1Scanned s && card2Scanned s && card3Scanned s in
  let s1 := final_state (vipPhase inp s) in
  vipMode s1 =
    (if vipMode s then negb (ul_sub (now inp) (vipStartTime s) >? vipDuration)
     else pressed || armed) /\
  vipStartTime s1 =
    (if vipMode s then vipStartTime s
     else if pressed || armed then now inp else vipStartTime s).
Proof.
  destruct s as [? ? f1 f2 f3 v ? ? ? ? ls ? ? ?], inp as [n [r1 e1 t1] b2 c e].
  destruct v, f1, f2, f3, r1, ls; unfold_sketch; cbn;
    repeat (first [rewrite ul_sub_diag; change (0 >? vipDuration) with false
                  | case_if]; cbn); split; reflexivity.
Qed.

(** X5: whatever else happens in an iteration, VIP mode after it is
    decided on lines 96-118 alone: from off it is switched on by a
    reported button press or by three set scan flags, and [vipStartTime]
    becomes the clock value of the iteration; from on it stays on with
    [vipStartTime] unchanged unless more than 30000 ms have passed, so a
    press or a scan during VIP mode does not extend it. *)
Theorem vip_transition (s : State) (inp : TickIn) :
  let pressed := result (buttonPressed (btn_vip inp) s) in
  let armed := card1Scanned s && card2Scanned s && card3Scanned s in
  vipMode (tick inp s) =
    (if vipMode s then negb (ul_sub (now inp) (vipStartTime s) >? vipDuration)
     else pressed || armed) /\
  vipStartTime (tick inp s) =
    (if vipMode s then vipStartTime s
     else if pressed || armed then now inp else vipStartTime s).
Proof.
  cbv zeta.
  rewrite (proj1 (tick_vip inp s)), (proj2 (tick_vip inp s)).
  apply vipPhase_vip.
Qed.

Lemma ul_sub_elapsed (start d : Z) :
  0 <= d < ULONG_MOD -> ul_sub ((start + d) mod ULONG_MOD) start = d.
Proof.
  intros Hd. unfold ul_sub.
  rewrite Zminus_mod_idemp_l.
  replace (start + d - start) with d by lia.
  apply Z.mod_small. exact Hd.
Qed.

(** X6: the 30000 ms of VIP mode are measured correctly across the
    roll-over of [millis()]: in an iteration that starts in VIP mode and
    whose clock reads [vipStartTime + d] modulo 2^32, VIP mode survives
    exactly when [d] is at most 30000. *)
Theorem vip_lifetime_wraps (s : State) (inp : TickIn) (d : Z) :
  vipMode s = true -> 0 <= d < ULONG_MOD ->
  now inp = (vipStartTime s + d) mod ULONG_MOD ->
  (vipMode (tick inp s) = true <-> d <= vipDuration).
Proof.
  intros Hv Hd Hn.
  rewrite (proj1 (tick_vip inp s)), (proj1 (vipPhase_vip inp s)), Hv, Hn.
  rewrite (ul_sub_elapsed _ _ Hd), negb_true_iff.
  rewrite Z.gtb_ltb, Z.ltb_ge. reflexivity.
Qed.

Lemma vip_lifetime_wraps_witness :
  let s := set_vipStartTime (ULONG_MOD - 100) (set_vipMode true initial) in
  (vipMode s = true /\ now (quiet_tick 29900) = (vipStartTime s + 30000) mod ULONG_MOD) /\
  vipMode (tick (quiet_tick 29900) s) = true /\
  vipMode (tick (quiet_tick 29901) s) = false.
Proof.
  intros s.
  assert (Hv : vipMode s = true) by reflexivity.
  assert (H0 : now (quiet_tick 29900) = (vipStartTime s + 30000) mod ULONG_MOD)
    by reflexivity.
  assert (H1 : now (quiet_tick 29901) = (vipStartTime s + 30001) mod ULONG_MOD)
    by reflexivity.
  split; [split; assumption|]. split.
  - apply (proj2 (vip_lifetime_wraps s (quiet_tick 29900) 30000 Hv
                    ltac:(unfold ULONG_MOD; lia) H0)).
    unfold vipDuration; lia.
  - apply not_true_is_false. intros C.
    apply (proj1 (vip_lifetime_wraps s (quiet_tick 29901) 30001 Hv
                    ltac:(unfold ULONG_MOD; lia) H1)) in C.
    unfold vipDuration in C; lia.
Defined.

(** X7: VIP mode that is on stays on, with [vipStartTime] unchanged,
    through every iteration whose clock is within 30000 ms of
    [vipStartTime], whatever the button, the reader and the sensor
    answer; and if no alert is active when such a run starts, none is
    active when it ends. *)
Theorem vip_window (ins : list TickIn) (s : State) :
  vipMode s = true ->
  Forall (fun inp => ul_sub (now inp) (vipStartTime s) <= vipDuration) ins ->
  vipMode (run ins s) = true /\
  vipStartTime (run ins s) = vipStartTime s /\
  (alertActive s = false -> alertActive (run ins s) = false).
Proof.
  revert s. induction ins as [|inp ins IH]; intros s Hv Hall.
  - repeat split; auto.
  - inversion Hall as [|? ? Hle Hrest]; subst.
    apply gtb_false_le in Hle.
    destruct (vipPhase_vip inp s) as [E1 E2]. rewrite Hv in E1, E2. rewrite Hle in E1.
    cbn in E1.
    destruct (tick_vip inp s) as [T1 T2]. rewrite E1 in T1. rewrite E2 in T2.
    rewrite run_cons.
    destruct (IH (tick inp s) T1) as (I1 & I2 & I3).
    { rewrite T2. exact Hrest. }
    split; [exact I1|]. split; [congruence|].
    intros Ha. apply I3.
    destruct (vipPhase_frame inp s) as (Ha1 & _).
    destruct (dispatch_vip_silent inp (final_state (vipPhase inp s)) E1) as (_ & Hal & _).
    rewrite tick_split. apply not_true_is_false. intros C.
    apply Hal in C. congruence.
Qed.

Lemma vip_window_witness :
  let s := run [press_tick 0; press_tick 50] initial in
  let ins := [motion_tick 2000 900; card_tick 4000 uid1; press_tick 30050] in
  (vipMode s = true /\ alertActive s = false) /\
  vipMode (run ins s) = true /\ vipStartTime (run ins s) = 50 /\
  alertActive (run ins s) = false.
Proof.
  intros s ins.
  assert (Hv : vipMode s = true) by reflexivity.
  assert (Hall : Forall (fun inp => ul_sub (now inp) (vipStartTime s) <= vipDuration) ins).
  { repeat constructor; vm_compute; discriminate. }
  destruct (vip_window ins s Hv Hall) as (H1 & H2 & H3).
  split; [split; [exact Hv | reflexivity]|].
  split; [exact H1|]. split; [exact H2|]. exact (H3 eq_refl).
Defined.

(** ** The life of an alert *)

Lemma dispatch_alert_after inp s :
  alertActive (final_state (dispatch inp s)) =
  if alertActive s then
    negb (result (buttonPressed (btn_ack inp) s)
          || match card inp with Some u => knownCard u | None => false end)
  else
    match card inp with
    | Some _ => false
    | None =>
        (ul_sub (now inp) (lastMotionTime s) >? motionCooldown)
        && ((distance_of (echo inp) >? 0)
            && (distance_of (echo inp) <=? MOTION_THRESHOLD_CM))
        && negb (vipMode s)
    end.
Proof.
  rewrite distance_of_eq. unfold knownCard.
  destruct s as [a ? ? ? ? v ? ? ? ? ls ? ? ?], inp as [n b1 [r2 e2 t2] c e].
  destruct a, v, r2, ls; unfold_sketch; cbn;
    repeat (sketch_step; cbn); rewrite ?andb_false_r, ?andb_true_r in *;
    cbn; try reflexivity; try congruence.
Qed.

(** X8: whether an alert is active after an iteration.  An active alert
    ends exactly when [buttonPressed] reports a press at the
    acknowledgment check or the reader holds an allow-listed card; with no
    alert active, one starts exactly when the reader holds no card, more
    than 1500 ms have passed since [lastMotionTime], the reading is above
    0 and at most 20 cm, and VIP mode is off after lines 96-118. *)
Theorem alert_transition (s : State) (inp : TickIn) :
  alertActive (tick inp s) =
  if alertActive s then
    negb (result (buttonPressed (btn_ack inp) (final_state (vipPhase inp s)))
          || match card inp with Some u => knownCard u | None => false end)
  else
    match card inp with
    | Some _ => false
    | None =>
        (ul_sub (now inp) (lastMotionTime s) >? motionCooldown)
        && ((distance_of (echo inp) >? 0)
            && (distance_of (echo inp) <=? MOTION_THRESHOLD_CM))
        && negb (vipMode (tick inp s))
    end.
Proof.
  rewrite (proj1 (tick_vip inp s)), tick_split, dispatch_alert_after.
  destruct (vipPhase_frame inp s) as (Ha & Hm & _). rewrite Ha, Hm. reflexivity.
Qed.

Lemma dispatch_blink inp s :
  alertActive s = true ->
  result (buttonPressed (btn_ack inp) s) = false -> card inp = None ->
  let s2 := final_state (dispatch inp s) in
  let toggled := negb (vipMode s) && (ul_sub (now inp) (lastBuzzerToggle s) >=? buzzerInterval) in
  alertActive s2 = true /\ pinLED s2 = HIGH /\
  buzzerState s2 = (if toggled then negb (buzzerState s) else buzzerState s) /\
  lastBuzzerToggle s2 = (if toggled then now inp else lastBuzzerToggle s) /\
  pinBUZZER s2 =
    (if vipMode s then LOW
     else if toggled then (if buzzerState s then LOW else HIGH)
     else pinBUZZER s).
Proof.
  destruct s as [a ? ? ? ? v ? bs ? ? ls ? ? ?], inp as [n b1 [r2 e2 t2] c e].
  cbn. intros -> Hb ->.
  destruct v, bs, r2, ls; unfold_sketch; cbn in *;
    repeat (case_if; cbn in * ); try discriminate; repeat split.
Qed.

(** X9: the blink scheduler.  In an iteration with an alert active, no
    press reported at the acknowledgment check and no card at the reader,
    the alert stays active and the LED is high afterwards.  With VIP mode
    off the buzzer toggles exactly when at least 1000 ms (modulo 2^32)
    have passed since [lastBuzzerToggle], which then becomes the clock
    value of the iteration; otherwise [buzzerState] and [lastBuzzerToggle]
    are unchanged, and with VIP mode on the buzzer pin is low. *)
Theorem blink_scheduler (s : State) (inp : TickIn) :
  alertActive s = true ->
  let s1 := final_state (vipPhase inp s) in
  result (buttonPressed (btn_ack inp) s1) = false -> card inp = None ->
  let toggled :=
    negb (vipMode s1) && (ul_sub (now inp) (lastBuzzerToggle s) >=? buzzerInterval) in
  alertActive (tick inp s) = true /\ pinLED (tick inp s) = HIGH /\
  buzzerState (tick inp s) = (if toggled then negb (buzzerState s) else buzzerState s) /\
  lastBuzzerToggle (tick inp s) = (if toggled then now inp else lastBuzzerToggle s) /\
  pinBUZZER (tick inp s) =
    (if vipMode s1 then LOW
     else if toggled then (if buzzerState s then LOW else HIGH)
     else pinBUZZER s).
Proof.
  intros Ha s1 Hb Hc toggled.
  destruct (vipPhase_frame inp s) as (Ha1 & _ & Hbs & Hlt & Hbz & _).
  fold s1 in Ha1, Hbs, Hlt, Hbz.
  assert (Ha1' : alertActive s1 = true) by congruence.
  pose proof (dispatch_blink inp s1 Ha1' Hb Hc) as H. cbv zeta in H.
  rewrite Hbs, Hlt, Hbz in H. rewrite tick_split. exact H.
Qed.

Lemma blink_scheduler_witness :
  let s := run [motion_tick 2000 900] initial in
  (alertActive s = true /\ buzzerState s = true /\ pinBUZZER s = HIGH) /\
  pinBUZZER (tick (quiet_tick 2999) s) = HIGH /\
  pinBUZZER (tick (quiet_tick 3000) s) = LOW /\
  lastBuzzerToggle (tick (quiet_tick 3000) s) = 3000.
Proof.
  intros s.
  assert (Ha : alertActive s = true) by reflexivity.
  destruct (blink_scheduler s (quiet_tick 2999) Ha eq_refl eq_refl) as (_ & _ & _ & _ & P1).
  destruct (blink_scheduler s (quiet_tick 3000) Ha eq_refl eq_refl) as (_ & _ & _ & T2 & P2).
  split; [repeat split|].
  split; [exact P1|]. split; [exact P2 | exact T2].
Defined.

Lemma dispatch_unknown_in_alert inp s u :
  alertActive s = true ->
  result (buttonPressed (btn_ack inp) s) = false ->
  card inp = Some u -> knownCard u = false ->
  dispatch inp s =
  (tt, final_state (buttonPressed (btn_ack inp) s),
   [EvReadButton (raw (btn_ack inp)); EvCardPoll true; EvHaltA; EvDelay 200]).
Proof.
  unfold knownCard.
  destruct s as [a ? ? ? ? v ? bs ? ? ls ? ? ?], inp as [n b1 [r2 e2 t2] c e].
  cbn. intros -> Hb -> Hk.
  destruct r2, ls; unfold_sketch; cbn in *;
    repeat (first [rewrite Hk | case_if]; cbn in * ); try discriminate; reflexivity.
Qed.

(** X10: a card outside the allow-list read during an alert changes
    nothing: after lines 96-118 and the button poll the iteration only
    halts the card and waits 200 ms.  The alert stays active, the pins
    and the blink state are untouched, and the buzzer does not toggle in
    that iteration even when its second is over. *)
Theorem unknown_card_in_alert (s : State) (inp : TickIn) (u : Uid) :
  alertActive s = true ->
  let s1 := final_state (vipPhase inp s) in
  result (buttonPressed (btn_ack inp) s1) = false ->
  card inp = Some u -> knownCard u = false ->
  tick inp s = final_state (buttonPressed (btn_ack inp) s1) /\
  events (loop inp s) =
    events (vipPhase inp s) ++
    [EvReadButton (raw (btn_ack inp)); EvCardPoll true; EvHaltA; EvDelay 200] /\
  alertActive (tick inp s) = true /\
  pinBUZZER (tick inp s) = pinBUZZER s /\
  buzzerState (tick inp s) = buzzerState s /\
  lastBuzzerToggle (tick inp s) = lastBuzzerToggle s /\
  pinLED (tick inp s) = pinLED s1.
Proof.
  intros Ha s1 Hb Hc Hk.
  destruct (vipPhase_frame inp s) as (Ha1 & _ & Hbs & Hlt & Hbz & _).
  fold s1 in Ha1, Hbs, Hlt, Hbz.
  assert (Ha1' : alertActive s1 = true) by congruence.
  pose proof (dispatch_unknown_in_alert inp s1 u Ha1' Hb Hc Hk) as Hd.
  assert (Ht : tick inp s = final_state (buttonPressed (btn_ack inp) s1)).
  { rewrite tick_split. fold s1. rewrite Hd. reflexivity. }
  split; [exact Ht|].
  split; [rewrite loop_events_split; fold s1; rewrite Hd; reflexivity|].
  rewrite Ht, buttonPressed_frame.
  clearbody s1. destruct s1; cbn in *. repeat split; congruence.
Qed.

Lemma unknown_card_in_alert_witness :
  let s := run [motion_tick 2000 900] initial in
  let inp := card_tick 3500 unknown_bytes in
  (alertActive s = true /\ knownCard (card_of unknown_bytes) = false) /\
  alertActive (tick inp s) = true /\ pinBUZZER (tick inp s) = HIGH /\
  lastBuzzerToggle (tick inp s) = 2000.
Proof.
  intros s inp.
  assert (Ha : alertActive s = true) by reflexivity.
  assert (Hk : knownCard (card_of unknown_bytes) = false) by reflexivity.
  destruct (unknown_card_in_alert s inp _ Ha eq_refl eq_refl Hk)
    as (_ & _ & H1 & H2 & _ & H3 & _).
  split; [split; assumption|].
  split; [exact H1|]. split; [exact (eq_trans H2 eq_refl) | exact (eq_trans H3 eq_refl)].
Defined.

(** X11: a press held for more than 40 ms while an alert is active and
    VIP mode is off is reported by both calls of [buttonPressed] of the
    iteration: it switches VIP mode on and acknowledges the alert, so the
    LED is left high. *)
Theorem held_press_vip_and_ack (s : State) (inp : TickIn) :
  alertActive s = true -> vipMode s = false ->
  lastState s = LOW ->
  raw (btn_vip inp) = LOW -> raw (btn_ack inp) = LOW ->
  ul_sub (t_test (btn_vip inp)) (lastBounce s) > 40 ->
  ul_sub (t_test (btn_ack inp)) (lastBounce s) > 40 ->
  vipMode (tick inp s) = true /\ vipStartTime (tick inp s) = now inp /\
  alertActive (tick inp s) = false /\
  pinBUZZER (tick inp s) = LOW /\ pinLED (tick inp s) = HIGH.
Proof.
  intros Ha Hv Hls Hr1 Hr2 Ht1 Ht2.
  apply gtb_true_gt in Ht1, Ht2.
  destruct s as [a ? f1 f2 f3 v st ? ? lb ls ? ? ?],
           inp as [n [r1 e1 t1] [r2 e2 t2] c e].
  cbn in *. subst.
  unfold_sketch; cbn. rewrite Ht1; cbn.
  rewrite ul_sub_diag. change (0 >? vipDuration) with false. cbn.
  rewrite Ht2; cbn. repeat split.
Qed.

Lemma held_press_vip_and_ack_witness :
  let s := run [motion_tick 2000 900; press_tick 2050] initial in
  let inp := press_tick 2100 in
  (alertActive s = true /\ vipMode s = false /\ lastState s = LOW) /\
  vipMode (tick inp s) = true /\ alertActive (tick inp s) = false /\
  pinLED (tick inp s) = HIGH.
Proof.
  intros s inp.
  destruct (held_press_vip_and_ack s inp eq_refl eq_refl eq_refl eq_refl eq_refl
              eq_refl eq_refl) as (H1 & _ & H2 & _ & H3).
  split; [repeat split|]. split; [exact H1|]. split; [exact H2 | exact H3].
Defined.

(** ** The idle path *)

Lemma vipPhase_no_sensor inp s e :
  In e (events (vipPhase inp s)) ->
  (forall d, e <> EvPulseIn d) /\ (forall b, e <> EvCardPoll b) /\
  e <> EvHaltA /\ (forall d, e <> EvDelay d) /\
  (forall v, e <> EvWrite TRIG_PIN v).
Proof.
  destruct s as [? ? ? ? ? ? ? ? ? ? ? ? ? ?], inp as [n [r1 e1 t1] b2 c ec].
  unfold_sketch; cbn. repeat (case_if; cbn); intros H;
    repeat (destruct H as [H|H]; [subst e; repeat split; intros; discriminate|]);
    contradiction H.
Qed.

Lemma dispatch_sensor inp s d :
  In (EvPulseIn d) (events (dispatch inp s)) <->
  alertActive s = false /\ card inp = None /\
  ul_sub (now inp) (lastMotionTime s) > motionCooldown /\ d = echo inp.
Proof.
  rewrite Z.gt_lt_iff, <- Z.ltb_lt, <- Z.gtb_ltb.
  destruct s as [a ? ? ? ? v ? ? ? ? ls ? ? ?], inp as [n b1 [r2 e2 t2] c e].
  cbn. destruct a, v, r2, ls; unfold_sketch; cbn;
    repeat (sketch_step; cbn);
    (split; [intros H; not_in_events H; try (injection H as <-); repeat split; congruence
            | intros (H1 & H2 & H3 & H4); try discriminate; subst; try congruence; in_list]).
Qed.

(** X12: the range sensor is consulted in exactly those iterations in
    which no alert is active, the reader holds no card and more than
    1500 ms (modulo 2^32) have passed since [lastMotionTime]: never during
    an alert, never in an iteration that reads a card, never within the
    cooldown. *)
Theorem sensor_sampled_iff (s : State) (inp : TickIn) (d : Z) :
  In (EvPulseIn d) (events (loop inp s)) <->
  alertActive s = false /\ card inp = None /\
  ul_sub (now inp) (lastMotionTime s) > motionCooldown /\ d = echo inp.
Proof.
  destruct (vipPhase_frame inp s) as (Ha & Hm & _).
  rewrite loop_events_split, in_app_iff, dispatch_sensor, Ha, Hm.
  split; [intros [H|H]; [|exact H] | intros H; right; exact H].
  destruct (vipPhase_no_sensor inp s _ H) as (Hn & _).
  destruct (Hn d eq_refl).
Qed.

(** X13: among the pulse widths [pulseIn] can answer, those from 59 to
    1235 microseconds are the ones [loop] takes for motion (a reading
    above 0 and at most 20 cm). *)
Theorem motion_pulse_window (P : Z) :
  0 <= P <= 50000 ->
  ((distance_of P >? 0) && (distance_of P <=? MOTION_THRESHOLD_CM) = true <->
   59 <= P <= 1235).
Proof.
  intros HP. rewrite distance_of_eq, andb_true_iff, Z.gtb_gt, Z.leb_le.
  unfold MOTION_THRESHOLD_CM.
  destruct (P =? 0) eqn:E0.
  - apply Z.eqb_eq in E0. lia.
  - apply Z.eqb_neq in E0. rewrite cm_single_floor by lia. unfold floor_cm.
    pose proof (Z_div_mod_eq_full (17 * P) 1000) as Hq.
    pose proof (Z.mod_pos_bound (17 * P) 1000 ltac:(lia)) as Hr.
    lia.
Qed.

Lemma motion_pulse_window_witness :
  0 <= 1235 <= 50000 /\
  (distance_of 1235 >? 0) && (distance_of 1235 <=? MOTION_THRESHOLD_CM) = true.
Proof.
  assert (H : 0 <= 1235 <= 50000) by lia.
  split; [exact H|]. apply (proj2 (motion_pulse_window 1235 H)). lia.
Defined.

Lemma dispatch_no_detection inp s :
  alertActive s = false -> card inp = None ->
  (ul_sub (now inp) (lastMotionTime s) >? motionCooldown) = true ->
  (distance_of (echo inp) >? 0) && (distance_of (echo inp) <=? MOTION_THRESHOLD_CM) = false ->
  dispatch inp s =
  (tt, set_pin TRIG_PIN LOW s,
   [EvCardPoll false; EvWrite TRIG_PIN LOW; EvDelayMicroseconds 2;
    EvWrite TRIG_PIN HIGH; EvDelayMicroseconds 10; EvWrite TRIG_PIN LOW;
    EvPulseIn (echo inp); EvDelay 40]).
Proof.
  rewrite distance_of_eq.
  destruct s as [a ? ? ? ? v ? ? ? ? ls ? ? ?], inp as [n b1 b2 c e].
  cbn. intros -> -> Hc Hd.
  unfold_sketch; cbn. rewrite Hc; cbn.
  destruct (e =? 0); cbn; rewrite Hd; reflexivity.
Qed.

(** X14: a measurement that times out or reads 0 or more than 20 cm is no
    detection.  After lines 96-118 the iteration only polls the reader,
    pulses the trigger and waits 40 ms, and the state differs from the one
    lines 96-118 leave only in the trigger pin, which is low.  No alert
    starts, and the buzzer and [lastMotionTime] are as at the start of the
    iteration, so the cooldown is not restarted: a next iteration without
    card in which the cooldown is still over reads the sensor again. *)
Theorem no_detection_no_change (s : State) (inp : TickIn) :
  alertActive s = false -> card inp = None ->
  ul_sub (now inp) (lastMotionTime s) > motionCooldown ->
  (distance_of (echo inp) >? 0) && (distance_of (echo inp) <=? MOTION_THRESHOLD_CM) = false ->
  let s1 := final_state (vipPhase inp s) in
  tick inp s = set_pin TRIG_PIN LOW s1 /\
  events (loop inp s) =
    events (vipPhase inp s) ++
    [EvCardPoll false; EvWrite TRIG_PIN LOW; EvDelayMicroseconds 2;
     EvWrite TRIG_PIN HIGH; EvDelayMicroseconds 10; EvWrite TRIG_PIN LOW;
     EvPulseIn (echo inp); EvDelay 40] /\
  alertActive (tick inp s) = false /\
  lastMotionTime (tick inp s) = lastMotionTime s /\
  pinBUZZER (tick inp s) = pinBUZZER s /\
  pinLED (tick inp s) = pinLED s1 /\
  (forall next, card next = None ->
     ul_sub (now next) (lastMotionTime s) > motionCooldown ->
     In (EvPulseIn (echo next)) (events (loop next (tick inp s)))).
Proof.
  intros Ha Hc Hcool Hd s1. apply gtb_true_gt in Hcool.
  destruct (vipPhase_frame inp s) as (Ha1 & Hm & _ & _ & Hbz & _).
  fold s1 in Ha1, Hm, Hbz.
  assert (Hdis : dispatch inp s1 =
                 (tt, set_pin TRIG_PIN LOW s1,
                  [EvCardPoll false; EvWrite TRIG_PIN LOW; EvDelayMicroseconds 2;
                   EvWrite TRIG_PIN HIGH; EvDelayMicroseconds 10; EvWrite TRIG_PIN LOW;
                   EvPulseIn (echo inp); EvDelay 40])).
  { apply dispatch_no_detection; try assumption; congruence. }
  assert (Ht : tick inp s = set_pin TRIG_PIN LOW s1).
  { rewrite tick_split. fold s1. rewrite Hdis. reflexivity. }
  assert (Hf : alertActive (tick inp s) = false /\
               lastMotionTime (tick inp s) = lastMotionTime s /\
               pinBUZZER (tick inp s) = pinBUZZER s /\
               pinLED (tick inp s) = pinLED s1).
  { rewrite Ht. clearbody s1. destruct s1; cbn in *. repeat split; congruence. }
  destruct Hf as (F1 & F2 & F3 & F4).
  split; [exact Ht|].
  split; [rewrite loop_events_split; fold s1; rewrite Hdis; reflexivity|].
  split; [exact F1|]. split; [exact F2|]. split; [exact F3|]. split; [exact F4|].
  intros next Hn Hnext.
  rewrite loop_events_split. apply in_or_app; right.
  apply dispatch_sensor.
  destruct (vipPhase_frame next (tick inp s)) as (Hb1 & Hb2 & _).
  rewrite Hb1, Hb2, F1, F2. repeat split; assumption.
Qed.

Lemma no_detection_no_change_witness :
  let inp := motion_tick 2000 0 in
  let next := motion_tick 2100 900 in
  (alertActive initial = false /\
   ul_sub (now inp) (lastMotionTime initial) > motionCooldown /\
   distance_of (echo inp) = -1) /\
  alertActive (tick inp initial) = false /\ lastMotionTime (tick inp initial) = 0 /\
  In (EvPulseIn 900) (events (loop next (tick inp initial))).
Proof.
  intros inp next.
  assert (Hcool : ul_sub (now inp) (lastMotionTime initial) > motionCooldown) by reflexivity.
  assert (Hnext : ul_sub (now next) (lastMotionTime initial) > motionCooldown) by reflexivity.
  destruct (no_detection_no_change initial inp eq_refl eq_refl Hcool eq_refl)
    as (_ & _ & H1 & H2 & _ & _ & H3).
  split; [repeat split; try assumption|]. split; [exact H1|]. split; [exact H2|].
  exact (H3 next eq_refl Hnext).
Defined.

Lemma dispatch_cooldown inp s :
  alertActive s = false -> card inp = None ->
  (ul_sub (now inp) (lastMotionTime s) >? motionCooldown) = false ->
  dispatch inp s = (tt, s, [EvCardPoll false; EvDelay 40]).
Proof.
  destruct s as [a ? ? ? ? v ? ? ? ? ls ? ? ?], inp as [n b1 b2 c e].
  cbn. intros -> -> Hc.
  unfold_sketch; cbn. rewrite Hc; reflexivity.
Qed.

(** X15: within the cooldown an idle iteration without card does nothing
    after lines 96-118 but poll the reader and wait 40 ms: a card scan or
    a detection keeps the sensor quiet for the next 1500 ms. *)
Theorem cooldown_quiet (s : State) (inp : TickIn) :
  alertActive s = false -> card inp = None ->
  ul_sub (now inp) (lastMotionTime s) <= motionCooldown ->
  tick inp s = final_state (vipPhase inp s) /\
  events (loop inp s) = events (vipPhase inp s) ++ [EvCardPoll false; EvDelay 40].
Proof.
  intros Ha Hc Hcool. apply gtb_false_le in Hcool.
  destruct (vipPhase_frame inp s) as (Ha1 & Hm & _).
  rewrite tick_split, loop_events_split, dispatch_cooldown; try congruence.
  split; reflexivity.
Qed.

Lemma cooldown_quiet_witness :
  let s := run [card_tick 1000 uid1] initial in
  let inp := motion_tick 2500 900 in
  (alertActive s = false /\ ul_sub (now inp) (lastMotionTime s) <= motionCooldown) /\
  tick inp s = final_state (vipPhase inp s).
Proof.
  intros s inp.
  assert (Hcool : ul_sub (now inp) (lastMotionTime s) <= motionCooldown)
    by (vm_compute; discriminate).
  split; [split; [reflexivity | exact Hcool]|].
  exact (proj1 (cooldown_quiet s inp eq_refl eq_refl Hcool)).
Defined.

(** X16: a card of credential [c] read while no alert is active sets the
    scan flag of [c] and of no other credential, drives the LED high and
    sets [lastMotionTime] to the clock value of the iteration; the sensor
    is not consulted and no alert starts in that iteration. *)
Theorem known_card_idle (s : State) (inp : TickIn) (u : Uid) (c : cred) :
  alertActive s = false -> card inp = Some u ->
  compareUID (uidByte u) (cred_uid c) 4 = true ->
  (forall c', scanned c' (tick inp s) =
              scanned c' (final_state (vipPhase inp s)) || cred_eqb c' c) /\
  pinLED (tick inp s) = HIGH /\
  lastMotionTime (tick inp s) = now inp /\
  alertActive (tick inp s) = false /\
  pinBUZZER (tick inp s) = pinBUZZER s.
Proof.
  intros Ha Hc Hu.
  destruct (vipPhase_frame inp s) as (Ha1 & _ & _ & _ & Hbz & _).
  split.
  - intros c'. rewrite tick_split, dispatch_scanned.
    unfold idle_scan, presents. rewrite Ha1, Ha, Hc. cbn. f_equal.
    destruct (compareUID (uidByte u) (cred_uid c') 4) eqn:E.
    + rewrite (uid_distinct _ _ _ E Hu). destruct c; reflexivity.
    + destruct c, c'; cbn; try reflexivity; congruence.
  - rewrite tick_split. rewrite Ha in Ha1. rewrite <- Hbz.
    remember (final_state (vipPhase inp s)) as s1 eqn:Es1.
    clear Es1. destruct s1 as [a ? ? ? ? v ? ? ? ? ls ? ? ?], inp as [n b1 b2 cd e].
    cbn in *. subst.
    unfold_sketch; cbn. rewrite print_uid_from_run; cbn.
    repeat (case_if; cbn); repeat split.
Qed.

Lemma known_card_idle_witness :
  let inp := card_tick 100 uid3 in
  (alertActive initial = false /\ card inp = Some (card_of uid3)) /\
  card3Scanned (tick inp initial) = true /\
  card1Scanned (tick inp initial) = false /\
  pinLED (tick inp initial) = HIGH /\ lastMotionTime (tick inp initial) = 100.
Proof.
  intros inp.
  destruct (known_card_idle initial inp (card_of uid3) Cred3 eq_refl eq_refl eq_refl)
    as (Hs & H1 & H2 & _).
  split; [split; reflexivity|].
  split; [exact (eq_trans (Hs Cred3) eq_refl)|].
  split; [exact (eq_trans (Hs Cred1) eq_refl)|].
  split; [exact H1 | exact H2].
Defined.

(** ** The shape of a trace *)

Lemma last_app_nonempty {A} (a b : list A) (d : A) :
  b <> [] -> last (a ++ b) d = last b d.
Proof.
  intros Hb. induction a as [|x a IH]; [reflexivity|].
  cbn [app last]. destruct (a ++ b) eqn:E; [|exact IH].
  apply app_eq_nil in E as [_ E]. contradiction.
Qed.

Lemma skipn_nth_cons {A} (l : list A) (d : A) : forall i,
  (i < List.length l)%nat -> skipn i l = nth i l d :: skipn (S i) l.
Proof.
  induction l as [|x l IH]; intros i Hi; cbn in Hi; [lia|].
  destruct i as [|i]; [reflexivity|].
  cbn [skipn nth]. apply IH. lia.
Qed.

Lemma delays_app a b : delays (a ++ b) = delays a ++ delays b.
Proof. apply flat_map_app. Qed.

Lemma delays_uid_text uid n : forall i, delays (uid_text uid i n) = [].
Proof.
  induction n as [|n IH]; intros i; [reflexivity|].
  cbn [uid_text]. rewrite delays_app. cbn. rewrite IH.
  destruct (nth i uid 0 <? 16); reflexivity.
Qed.

Lemma vipPhase_delays inp s : delays (events (vipPhase inp s)) = [].
Proof.
  destruct s as [? ? ? ? ? ? ? ? ? ? ? ? ? ?], inp as [n [r1 e1 t1] b2 c ec].
  unfold_sketch; cbn. repeat (case_if; cbn); reflexivity.
Qed.

Lemma dispatch_card_idle_events inp s u :
  alertActive s = false -> card inp = Some u ->
  events (dispatch inp s) =
  EvCardPoll true :: EvPrint "Card UID: " ::
    uid_text (uidByte u) 0 (uid_size u) ++
    [EvPrintln ""; EvWrite LED_PIN HIGH; EvHaltA; EvDelay 100].
Proof.
  destruct s as [a ? ? ? ? ? ? ? ? ? ? ? ? ?], inp as [n b1 b2 c e].
  cbn. intros -> ->.
  unfold_sketch; cbn. rewrite print_uid_from_run; cbn.
  repeat (case_if; cbn); reflexivity.
Qed.

Lemma dispatch_pause inp s :
  let card_present := match card inp with Some _ => true | None => false end in
  let d := if alertActive s then
             if result (buttonPressed (btn_ack inp) s) || card_present
             then 200 else 20
           else if card_present then 100 else 40 in
  delays (events (dispatch inp s)) = [d] /\
  last (events (dispatch inp s)) (EvDelay 0) = EvDelay d.
Proof.
  destruct (alertActive s) eqn:Ha.
  - cbv zeta.
    destruct s as [a ? ? ? ? v ? ? ? ? ls ? ? ?], inp as [n b1 [r2 e2 t2] c e].
    cbn in *. subst a. destruct r2, ls; unfold_sketch; cbn;
      repeat (case_if; cbn); split; reflexivity.
  - cbv zeta. destruct (card inp) as [u|] eqn:Hc.
    + rewrite (dispatch_card_idle_events inp s u Ha Hc).
      change (EvCardPoll true :: EvPrint "Card UID: " ::
               uid_text (uidByte u) 0 (uid_size u) ++
               [EvPrintln ""; EvWrite LED_PIN HIGH; EvHaltA; EvDelay 100])
        with ([EvCardPoll true; EvPrint "Card UID: "] ++
               uid_text (uidByte u) 0 (uid_size u) ++
               [EvPrintln ""; EvWrite LED_PIN HIGH; EvHaltA] ++ [EvDelay 100]).
      split.
      * rewrite !delays_app, delays_uid_text. reflexivity.
      * rewrite !app_assoc. apply last_last.
    + destruct s as [a ? ? ? ? v ? ? ? ? ls ? ? ?], inp as [n b1 b2 c e].
      cbn in *. subst. unfold_sketch; cbn.
      repeat (case_if; cbn); split; reflexivity.
Qed.

(** X20: every iteration pauses exactly once, as its last action: for
    200 ms after an acknowledgment check that found a press or a card,
    for 20 ms in a blinking iteration, for 100 ms after an idle card scan
    and for 40 ms otherwise. *)
Theorem one_pause_per_iteration (s : State) (inp : TickIn) :
  delays (events (loop inp s)) = [tick_pause inp s] /\
  last (events (loop inp s)) (EvDelay 0) = EvDelay (tick_pause inp s) /\
  In (tick_pause inp s) [20; 40; 100; 200].
Proof.
  destruct (dispatch_pause inp (final_state (vipPhase inp s))) as [Hd Hl].
  destruct (vipPhase_frame inp s) as (Ha & _). rewrite Ha in Hd, Hl.
  fold (tick_pause inp s) in Hd, Hl.
  rewrite loop_events_split, delays_app, vipPhase_delays, Hd.
  split; [reflexivity|]. split.
  - destruct (events (dispatch inp (final_state (vipPhase inp s)))) as [|e es] eqn:E;
      [discriminate Hd|].
    rewrite <- Hl. apply last_app_nonempty. discriminate.
  - unfold tick_pause.
    repeat match goal with |- context [if ?c then _ else _] => destruct c end;
      cbn; auto.
    all: destruct (card inp); cbn; auto.
Qed.

Lemma dispatch_halt inp s :
  In EvHaltA (events (dispatch inp s)) <-> In (EvCardPoll true) (events (dispatch inp s)).
Proof.
  destruct (alertActive s) eqn:Ha; [|destruct (card inp) as [u|] eqn:Hc].
  - destruct s as [a ? ? ? ? v ? ? ? ? ls ? ? ?], inp as [n b1 [r2 e2 t2] c e].
    cbn in *. subst a. destruct r2, ls; unfold_sketch; cbn;
      repeat (case_if; cbn);
      (split; intros H; first [solve [in_list] | not_in_events H]).
  - rewrite (dispatch_card_idle_events inp s u Ha Hc).
    split; intros _; [in_list|].
    right; right. apply in_or_app; right. in_list.
  - destruct s as [a ? ? ? ? v ? ? ? ? ls ? ? ?], inp as [n b1 b2 c e].
    cbn in *. subst. unfold_sketch; cbn.
    repeat (case_if; cbn); (split; intros H; not_in_events H).
Qed.

(** X21: the reader is told to halt the card in exactly the iterations in
    which a card was read from it: every card that is read is halted, on
    the alert path and on the idle path, and there is no halt without a
    card. *)
Theorem card_halted_iff_read (s : State) (inp : TickIn) :
  In EvHaltA (events (loop inp s)) <-> In (EvCardPoll true) (events (loop inp s)).
Proof.
  rewrite loop_events_split, !in_app_iff, dispatch_halt.
  split; (intros [H|H]; [|right; exact H]);
    destruct (vipPhase_no_sensor inp s _ H) as (_ & Hp & Hh & _);
    [destruct (Hh eq_refl) | destruct (Hp true eq_refl)].
Qed.

(** ** The identifier on the serial line *)

Lemma byte_text_checked : holds_on byte_text_ok 0 256 = true.
Proof. vm_compute. reflexivity. Qed.

Lemma read_one_byte b rest :
  0 <= b < 256 ->
  read_hex_bytes (append (byte_text b) (String " " rest)) = b :: read_hex_bytes rest.
Proof.
  intros Hb.
  pose proof (holds_on_sound _ _ _ byte_text_checked b ltac:(lia)) as H.
  unfold byte_text_ok in H.
  destruct (byte_text b) as [|h [|l [|? ?]]]; try discriminate.
  destruct (hex_value h) as [x|] eqn:Eh; [|discriminate].
  destruct (hex_value l) as [y|] eqn:El; [|discriminate].
  apply Z.eqb_eq in H. cbn [append read_hex_bytes]. rewrite Eh, El, H. reflexivity.
Qed.

Lemma serial_text_uid_text uid n : forall i,
  serial_text (uid_text uid i n) =
  match n with
  | O => EmptyString
  | S n' =>
      append (byte_text (nth i uid 0))
             (String " " (serial_text (uid_text uid (S i) n')))
  end.
Proof.
  destruct n as [|n]; intros i; [reflexivity|].
  cbn [uid_text]. unfold byte_text.
  destruct (nth i uid 0 <? 16); reflexivity.
Qed.

Lemma read_uid_text uid n : forall i,
  Forall (fun b => 0 <= b < 256) uid ->
  (i + n <= List.length uid)%nat ->
  read_hex_bytes (serial_text (uid_text uid i n)) = firstn n (skipn i uid).
Proof.
  induction n as [|n IH]; intros i Hb Hl.
  - reflexivity.
  - rewrite serial_text_uid_text.
    assert (Hi : (i < List.length uid)%nat) by lia.
    rewrite read_one_byte.
    + rewrite IH by (assumption || lia).
      rewrite (skipn_nth_cons uid 0 i Hi). reflexivity.
    + rewrite Forall_forall in Hb. apply Hb, nth_In, Hi.
Qed.

(** X22: the identifier line of lines 164-168 can be read back: for a
    well-formed identifier the characters printed are two upper-case
    hexadecimal digits and a space per byte, and decoding them gives the
    first [uid.size] bytes of the buffer again. *)
Theorem uid_line_round_trip (u : Uid) (s : State) :
  wf_uid u ->
  read_hex_bytes
    (serial_text (events (print_uid_from (uidByte u) 0 (uid_size u) s))) =
  firstn (uid_size u) (uidByte u).
Proof.
  intros (Hl & Hs & Hb).
  rewrite print_uid_from_run. unfold events; cbn [snd].
  rewrite read_uid_text; [reflexivity | exact Hb | lia].
Qed.

Lemma uid_line_round_trip_witness :
  let u := card_of [0x07; 0xB6; 0x52; 0x8D] in
  wf_uid u /\
  serial_text (events (print_uid_from (uidByte u) 0 (uid_size u) initial)) =
    "07 B6 52 8D "%string /\
  read_hex_bytes "07 B6 52 8D " = [0x07; 0xB6; 0x52; 0x8D].
Proof.
  intros u.
  assert (Hw : wf_uid u).
  { apply card_of_wf; [reflexivity|]. repeat constructor; lia. }
  split; [exact Hw|]. split; [reflexivity|].
  exact (uid_line_round_trip u initial Hw).
Defined.

(** ** Invariants of the outputs *)

Lemma vipPhase_led_in_alert inp s :
  alertActive s = true -> pinLED (final_state (vipPhase inp s)) = pinLED s.
Proof.
  destruct s as [a ? ? ? ? ? ? ? ? ? ? ? ? ?], inp as [n [r1 e1 t1] b2 c e].
  cbn. intros ->. unfold_sketch; cbn. repeat (case_if; cbn); reflexivity.
Qed.

Lemma dispatch_led_inv inp s :
  (alertActive s = true -> pinLED s = HIGH) ->
  alertActive (final_state (dispatch inp s)) = true ->
  pinLED (final_state (dispatch inp s)) = HIGH.
Proof.
  destruct s as [a ? ? ? ? ? ? ? ? ? ? ? ? ?], inp as [n b1 [r2 e2 t2] c e].
  cbn. unfold_sketch; cbn.
  repeat (sketch_step; cbn); intros H1 H2; first [reflexivity | discriminate | auto].
Qed.

(** X17: after every run from the state [setup] leaves, the LED is high
    whenever an alert is active; the guard on line 117 keeps the end of
    VIP mode from switching it off during an alert. *)
Theorem led_on_while_alerting (ins : list TickIn) :
  alertActive (run ins initial) = true -> pinLED (run ins initial) = HIGH.
Proof.
  assert (H : forall l s, (alertActive s = true -> pinLED s = HIGH) ->
              alertActive (run l s) = true -> pinLED (run l s) = HIGH).
  { induction l as [|inp l IH]; intros s Hs; [exact Hs|].
    rewrite run_cons. apply IH. rewrite tick_split.
    apply dispatch_led_inv.
    destruct (vipPhase_frame inp s) as (Ha & _). rewrite Ha. intros Hal.
    rewrite (vipPhase_led_in_alert inp s Hal). exact (Hs Hal). }
  apply H. intros C; discriminate C.
Qed.

Lemma led_on_while_alerting_witness :
  let ins := [press_tick 0; press_tick 50; quiet_tick 100; motion_tick 30051 900;
              quiet_tick 30091] in
  alertActive (run ins initial) = true /\ pinLED (run ins initial) = HIGH.
Proof.
  intros ins.
  assert (Ha : alertActive (run ins initial) = true) by reflexivity.
  split; [exact Ha | exact (led_on_while_alerting ins Ha)].
Defined.

Lemma dispatch_buzzerState_inv inp s :
  (pinBUZZER s = HIGH -> buzzerState s = true) ->
  pinBUZZER (final_state (dispatch inp s)) = HIGH ->
  buzzerState (final_state (dispatch inp s)) = true.
Proof.
  destruct s as [a ? ? ? ? ? ? bs ? ? ? ? ? ?], inp as [n b1 [r2 e2 t2] c e].
  cbn. unfold_sketch; cbn.
  repeat (sketch_step; cbn); intros H1 H2;
    first [reflexivity | discriminate | auto | destruct bs; first [reflexivity | discriminate]].
Qed.

(** X18: after every run from the state [setup] leaves, the buzzer pin is
    high only while [buzzerState] is true: the blink flag never claims
    silence while the buzzer sounds. *)
Theorem buzzer_high_means_state_on (ins : list TickIn) :
  pinBUZZER (run ins initial) = HIGH -> buzzerState (run ins initial) = true.
Proof.
  assert (H : forall l s, (pinBUZZER s = HIGH -> buzzerState s = true) ->
              pinBUZZER (run l s) = HIGH -> buzzerState (run l s) = true).
  { induction l as [|inp l IH]; intros s Hs; [exact Hs|].
    rewrite run_cons. apply IH. rewrite tick_split.
    apply dispatch_buzzerState_inv.
    destruct (vipPhase_frame inp s) as (_ & _ & Hbs & _ & Hbz & _).
    rewrite Hbs, Hbz. exact Hs. }
  apply H. intros C; discriminate C.
Qed.

Lemma buzzer_high_means_state_on_witness :
  let ins := [motion_tick 2000 900; quiet_tick 3000; quiet_tick 4000] in
  pinBUZZER (run ins initial) = HIGH /\ buzzerState (run ins initial) = true.
Proof.
  intros ins.
  assert (Hb : pinBUZZER (run ins initial) = HIGH) by reflexivity.
  split; [exact Hb | exact (buzzer_high_means_state_on ins Hb)].
Defined.


